(** * GBCE trading: a shallow embedding of [gbce_trading.py]

    The development follows the three classes of the module: [Trade], [Stock]
    (with the module-level cache [EXCHANGE_STOCKS]) and [GBCETrading], and the
    constants of [gbce_trading_config.py].

    Conventions of the embedding.
    - Python numbers ([int] and [float]) are exact rationals [Q]: rounding,
      infinities and NaN of binary floating point are not represented, and
      [complex] is left out.  A value that may be [None] is an [option].
    - A raised exception is the [Raise] branch of [result]; [try]/[except]
      is a [match] on it.
    - [datetime.datetime.now()] reads a clock carried by the [World]; every
      read advances the clock to its next reading.
    - A [str] carries the identity of the object next to its characters, since
      the source compares symbols with [is not].
    - A [dict] is an association list in insertion order; its keys compare by
      their characters. *)

From Stdlib Require Import QArith ZArith List String Bool Lia Lqa.
Import ListNotations.

Local Open Scope Q_scope.

(** ** Python values and exceptions *)

(** Messages of the [ValueError]s the module raises. *)
Inductive message : Type :=
| SymbolNotPresent        (* 'Symbol {0} is not present in current stocks...' *)
| PriceMustBePositiveNumber (* 'Price must be a positive number. Input price is : {0}' *)
| QuantityShouldBePositive (* 'The quantity of shares should be positive' *)
| PriceShouldBePositive   (* 'Price of share should be positive' *)
| TradeNotOfThisStock.    (* 'Argument trade {0} does not belong to this Stock' *)

Inductive exn : Type :=
| ValueError (m : message)
| TypeError
| KeyError
| ZeroDivisionError.

Inductive result (A : Type) : Type :=
| Ok (a : A)
| Raise (e : exn).

Arguments Ok {A} a.
Arguments Raise {A} e.

Definition bindR {A B : Type} (r : result A) (k : A -> result B) : result B :=
  match r with
  | Ok a => k a
  | Raise e => Raise e
  end.

(** A string object: [id] is the identity that [is] compares, [chars] the
    contents that [==] and dictionary lookup compare. *)
Record str : Type := { id : nat; chars : string }.

Definition str_is (a b : str) : bool := Nat.eqb (id a) (id b).
Definition str_eq (a b : str) : bool := String.eqb (chars a) (chars b).

(** An argument whose type the callee checks at run time. *)
Inductive pyval : Type :=
| PNone
| PNum (q : Q)
| PStr (s : string).

Definition Qlt_bool (x y : Q) : bool := negb (Qle_bool y x).

(** [a / b] on numbers. *)
Definition truediv (a b : Q) : result Q :=
  if Qeq_bool b 0 then Raise ZeroDivisionError else Ok (a / b).

(** [a / b] where [b] may be [None]. *)
Definition truediv_opt (a : Q) (b : option Q) : result Q :=
  match b with
  | Some y => truediv a y
  | None => Raise TypeError
  end.

(** [a * b] where [a] may be [None]. *)
Definition mul_opt (a : option Q) (b : Q) : result Q :=
  match a with
  | Some x => Ok (x * b)
  | None => Raise TypeError
  end.

(** [sum(xs)] *)
Definition sum (xs : list Q) : Q := fold_left Qplus xs 0.

(** ** The clock *)

(** Points in time and durations, in microseconds. *)
Definition datetime : Type := Z.
Definition timedelta (minutes : Z) : Z := (minutes * 60 * 1000000)%Z.

Record World : Type := { clock : nat -> datetime; reads : nat }.

Definition current_time (w : World) : datetime := clock w (reads w).

(** [datetime.datetime.now()] *)
Definition datetime_now (w : World) : datetime * World :=
  (current_time w, {| clock := clock w; reads := S (reads w) |}).

(** Computations that may read the clock and may raise. *)
Definition M (A : Type) : Type := World -> result A * World.

Definition ret {A : Type} (a : A) : M A := fun w => (Ok a, w).
Definition raise {A : Type} (e : exn) : M A := fun w => (Raise e, w).
Definition lift {A : Type} (r : result A) : M A := fun w => (r, w).
Definition now : M datetime :=
  fun w => let (t, w') := datetime_now w in (Ok t, w').

Definition bind {A B : Type} (m : M A) (k : A -> M B) : M B :=
  fun w =>
    match m w with
    | (Ok a, w') => k a w'
    | (Raise e, w') => (Raise e, w')
    end.

Notation "x <- m ;; k" := (bind m (fun x => k))
  (at level 61, m at next level, right associativity).

(** A list comprehension whose body is such a computation. *)
Fixpoint mapM {A B : Type} (f : A -> M B) (xs : list A) : M (list B) :=
  match xs with
  | [] => ret []
  | x :: xs' => y <- f x ;; ys <- mapM f xs' ;; ret (y :: ys)
  end.

(** ** Dictionaries *)

Definition dict (V : Type) : Type := list (string * V).

Fixpoint dict_get {V : Type} (d : dict V) (k : string) : option V :=
  match d with
  | [] => None
  | (k', v) :: d' => if String.eqb k k' then Some v else dict_get d' k
  end.

(** [k in d] *)
Definition dict_contains {V : Type} (d : dict V) (k : string) : bool :=
  match dict_get d k with
  | Some _ => true
  | None => false
  end.

(** [d[k] = v]: replaces the value of an existing key in place, appends a new
    key at the end. *)
Fixpoint dict_set {V : Type} (d : dict V) (k : string) (v : V) : dict V :=
  match d with
  | [] => [(k, v)]
  | (k', v') :: d' =>
      if String.eqb k k' then (k', v) :: d' else (k', v') :: dict_set d' k v
  end.

Definition dict_keys {V : Type} (d : dict V) : list string := map fst d.

(** ** gbce_trading_config.py *)

Module gbce_trading_config.

Inductive StockType : Type := COMMON | PREFERRED.
Inductive TradeType : Type := BUY | SELL.

Definition StockType_eqb (a b : StockType) : bool :=
  match a, b with
  | COMMON, COMMON | PREFERRED, PREFERRED => true
  | _, _ => false
  end.

Definition THRESHOLD_MINUTES : Z := 5.
Definition TIME_INTERVAL : Z := timedelta THRESHOLD_MINUTES.

End gbce_trading_config.
Import gbce_trading_config.

(** ** class Trade *)

Module Trade.

Record t : Type := {
  symbol : str;
  quantity : Q;
  tradeType : TradeType;
  price : Q;
  timestamp : datetime
}.

(** Executing [def __init__(..., timestamp=datetime.datetime.now())]
    evaluates the default of [timestamp] once, when the class body runs at
    import; the value is kept with the function. *)
Definition def___init__ (w : World) : datetime * World := datetime_now w.

(** [Trade(symbol, quantity, tradeType, price[, timestamp])];
    [timestamp_default] is the value [def___init__] stored. *)
Definition __init__ (timestamp_default : datetime)
    (symbol : str) (quantity : Q) (tradeType : TradeType) (price : Q)
    (timestamp : option datetime) : result t :=
  let timestamp :=
    match timestamp with
    | Some ts => ts
    | None => timestamp_default
    end in
  if Qlt_bool 0 quantity then
    if Qlt_bool 0 price then
      Ok {| symbol := symbol; quantity := quantity; tradeType := tradeType;
            price := price; timestamp := timestamp |}
    else Raise (ValueError PriceShouldBePositive)
  else Raise (ValueError QuantityShouldBePositive).

Definition totalPrice (self : t) : Q := quantity self * price self.

End Trade.

(** ** class Stock and the cache EXCHANGE_STOCKS *)

(** The details kept per symbol: a dictionary with the five keys of
    [gbce_trading_config]. *)
Record stockRecord : Type := {
  TYPE : StockType;
  LAST_DIVIDEND : Q;
  FIXED_DIVIDEND : option Q;
  PAR_VALUE : Q;
  TRADES : list Trade.t
}.

(** An object handed to [recordTrade]: an instance of [Trade] or not. *)
Inductive object : Type :=
| Instance_Trade (trade : Trade.t)
| Instance_other (v : pyval).

(** Truth value of an optional number: [None] and zero are false. *)
Definition truthy (v : option Q) : bool :=
  match v with
  | Some q => negb (Qeq_bool q 0)
  | None => false
  end.

Module Stock.

Record t : Type := {
  symbol : str;
  trades : list Trade.t
}.

Definition __init__ (symbol : str) : t :=
  {| symbol := symbol; trades := [] |}.

(** The list [self.trades] is stored in the record by reference; the
    embedding keeps the two copies equal by writing both in [recordTrade],
    as the source does. *)
Definition addStockDetails (self : t) (type : StockType) (lastDividend : Q)
    (parValue : Q) (fixedDividend : option Q)
    (EXCHANGE_STOCKS : dict stockRecord) : dict stockRecord :=
  dict_set EXCHANGE_STOCKS (chars (symbol self))
    {| TYPE := type;
       LAST_DIVIDEND := lastDividend;
       FIXED_DIVIDEND :=
         if truthy fixedDividend
         then option_map (fun percent => percent / 100) fixedDividend
         else fixedDividend;
       PAR_VALUE := parValue;
       TRADES := trades self |}.

Definition set_TRADES (r : stockRecord) (ts : list Trade.t) : stockRecord :=
  {| TYPE := TYPE r; LAST_DIVIDEND := LAST_DIVIDEND r;
     FIXED_DIVIDEND := FIXED_DIVIDEND r; PAR_VALUE := PAR_VALUE r;
     TRADES := ts |}.

(** Returns the outcome together with the object and the cache as the call
    leaves them; the append happens before the cache is indexed, so a
    [KeyError] leaves the trade in [self.trades]. *)
Definition recordTrade (self : t) (trade : object)
    (EXCHANGE_STOCKS : dict stockRecord)
    : result unit * t * dict stockRecord :=
  match trade with
  | Instance_other _ => (Raise TypeError, self, EXCHANGE_STOCKS)
  | Instance_Trade trade =>
      if negb (str_is (symbol self) (Trade.symbol trade)) then
        (Raise (ValueError TradeNotOfThisStock), self, EXCHANGE_STOCKS)
      else
        let self' :=
          {| symbol := symbol self; trades := trades self ++ [trade] |} in
        match dict_get EXCHANGE_STOCKS (chars (symbol self)) with
        | None => (Raise KeyError, self', EXCHANGE_STOCKS)
        | Some r =>
            (Ok tt, self',
             dict_set EXCHANGE_STOCKS (chars (symbol self))
               (set_TRADES r (trades self')))
        end
  end.

Definition getAllStocks (EXCHANGE_STOCKS : dict stockRecord)
    : dict stockRecord := EXCHANGE_STOCKS.

Definition getStock (EXCHANGE_STOCKS : dict stockRecord) (symbol : str)
    : result stockRecord :=
  match dict_get EXCHANGE_STOCKS (chars symbol) with
  | Some r => Ok r
  | None => Raise KeyError
  end.

End Stock.

(** ** class GBCETrading *)

Module GBCETrading.

(** [self.stocks] is a reference: to the cache itself, which later
    registrations and trades keep changing, or to the mapping the caller
    passed. *)
Inductive stocks_ref : Type :=
| The_cache
| Mapping (d : dict stockRecord).

Record t : Type := { stocks : stocks_ref }.

(** [self.stocks = stocks or Stock.getAllStocks()]: [None] and the empty
    mapping are both false. *)
Definition __init__ (stocks : option (dict stockRecord)) : t :=
  {| stocks :=
       match stocks with
       | Some (e :: d) => Mapping (e :: d)
       | Some [] | None => The_cache
       end |}.

(** The mapping [self.stocks] denotes when the cache holds
    [EXCHANGE_STOCKS]. *)
Definition view (self : t) (EXCHANGE_STOCKS : dict stockRecord)
    : dict stockRecord :=
  match stocks self with
  | The_cache => Stock.getAllStocks EXCHANGE_STOCKS
  | Mapping d => d
  end.

(** The queries look their [symbol] up in the mapping, which compares
    contents: they take the characters of the string. *)

(** [try: v = r  except ZeroDivisionError: logging.info(...)] with [v]
    preset to [None]. *)
Definition except_ZeroDivisionError (r : result Q) : result (option Q) :=
  match r with
  | Ok y => Ok (Some y)
  | Raise ZeroDivisionError => Ok None
  | Raise e => Raise e
  end.

Definition getDividendYield (self : t) (EXCHANGE_STOCKS : dict stockRecord)
    (symbol : string) (price : pyval) : result (option Q) :=
  let stocks := view self EXCHANGE_STOCKS in
  if negb (dict_contains stocks symbol) then
    Raise (ValueError SymbolNotPresent)
  else
    (* [not isinstance(price, Number) or price < 0] *)
    match price with
    | PNum price =>
        if Qlt_bool price 0 then Raise (ValueError PriceMustBePositiveNumber)
        else
          match dict_get stocks symbol with
          | None => Raise KeyError
          | Some stockRecord =>
              if StockType_eqb (TYPE stockRecord) COMMON then
                except_ZeroDivisionError
                  (truediv (LAST_DIVIDEND stockRecord) price)
              else
                except_ZeroDivisionError
                  (bindR (mul_opt (FIXED_DIVIDEND stockRecord)
                                  (PAR_VALUE stockRecord))
                         (fun n => truediv n price))
          end
    | PNone | PStr _ => Raise (ValueError PriceMustBePositiveNumber)
    end.

Definition getPERatio (self : t) (EXCHANGE_STOCKS : dict stockRecord)
    (symbol : string) (price : pyval) : result (option Q) :=
  let stocks := view self EXCHANGE_STOCKS in
  if negb (dict_contains stocks symbol) then
    Raise (ValueError SymbolNotPresent)
  else
    (* [not isinstance(price, Number) or price < 0] *)
    match price with
    | PNum p =>
        if Qlt_bool p 0 then Raise (ValueError PriceMustBePositiveNumber)
        else
          match bindR (getDividendYield self EXCHANGE_STOCKS symbol price)
                      (fun dividendYield => truediv_opt p dividendYield) with
          | Ok peratio => Ok (Some peratio)
          | Raise ZeroDivisionError => Ok None
          | Raise TypeError => Ok None
          | Raise e => Raise e
          end
    | PNone | PStr _ => Raise (ValueError PriceMustBePositiveNumber)
    end.

(** [trade.timestamp >= currentTime - TIME_INTERVAL] *)
Definition in_window (currentTime : datetime) (trade : Trade.t) : bool :=
  (currentTime - TIME_INTERVAL <=? Trade.timestamp trade)%Z.

Definition getVolumeWeightedStockPrice (self : t)
    (EXCHANGE_STOCKS : dict stockRecord) (symbol : string) : M (option Q) :=
  let stocks := view self EXCHANGE_STOCKS in
  if negb (dict_contains stocks symbol) then
    raise (ValueError SymbolNotPresent)
  else
    currentTime <- now ;;
    match dict_get stocks symbol with
    | None => raise KeyError
    | Some stockRecord =>
        let allTrades := TRADES stockRecord in
        let requiredTrades := filter (in_window currentTime) allTrades in
        if (0 <? List.length requiredTrades)%nat then
          let tradePrices := map Trade.totalPrice requiredTrades in
          let quantities := map Trade.quantity requiredTrades in
          v <- lift (truediv (sum tradePrices) (sum quantities)) ;;
          ret (Some v)
        else ret None
    end.

(** [None in xs] *)
Definition contains_None (xs : list (option Q)) : bool :=
  existsb (fun v => match v with None => true | Some _ => false end) xs.

(** [a * b] where [b] may be [None]. *)
Definition operator_mul (a : Q) (b : option Q) : result Q :=
  match b with
  | Some y => Ok (a * y)
  | None => Raise TypeError
  end.

(** [reduce(operator.mul, xs, initial)] *)
Definition reduce_mul (xs : list (option Q)) (initial : Q) : result Q :=
  fold_left (fun acc v => bindR acc (fun a => operator_mul a v))
            xs (Ok initial).

(** [len(d)] as a number. *)
Definition len {V : Type} (d : dict V) : Q :=
  inject_Z (Z.of_nat (List.length d)).

Section AllShareIndex.

(** [x ** y] on floats, for a positive base; it has no counterpart on
    [Q] and stays a parameter of the index. *)
Variable pow : Q -> Q -> Q.

Definition getGBCEAllShareIndex (self : t)
    (EXCHANGE_STOCKS : dict stockRecord) : M (option Q) :=
  let stocks := view self EXCHANGE_STOCKS in
  volumeWeightedStockPrices <-
    mapM (getVolumeWeightedStockPrice self EXCHANGE_STOCKS)
         (dict_keys stocks) ;;
  if negb (contains_None volumeWeightedStockPrices) then
    product <- lift (reduce_mul volumeWeightedStockPrices 1) ;;
    exponent <- lift (truediv 1 (len stocks)) ;;
    ret (Some (pow product exponent))
  else ret None.

End AllShareIndex.

End GBCETrading.

(** * Specification side *)

(** The invariant the constructor of [Trade] establishes. *)
Definition trade_valid (trade : Trade.t) : Prop :=
  0 < Trade.quantity trade /\ 0 < Trade.price trade.

(** Every trade of every stock of a mapping satisfies the invariant. *)
Definition trades_valid (d : dict stockRecord) : Prop :=
  Forall (fun entry => Forall trade_valid (TRADES (snd entry))) d.

(** [symbol] was registered with these details: the mapping holds the record
    [addStockDetails] writes, whatever trades were recorded since. *)
Definition registered (d : dict stockRecord) (symbol : string)
    (type : StockType) (lastDividend parValue : Q)
    (fixedDividendPercent : option Q) : Prop :=
  exists r,
    dict_get d symbol = Some r /\
    TYPE r = type /\
    LAST_DIVIDEND r = lastDividend /\
    PAR_VALUE r = parValue /\
    FIXED_DIVIDEND r =
      (if truthy fixedDividendPercent
       then option_map (fun percent => percent / 100) fixedDividendPercent
       else fixedDividendPercent).

(** The price argument is a number that is at least zero. *)
Definition number_ge_0 (price : pyval) : bool :=
  match price with
  | PNum p => Qle_bool 0 p
  | PNone | PStr _ => false
  end.

(** The five minutes of the trailing window, in microseconds. *)
Definition five_minutes : Z := 300000000.

(** The trades of the trailing window that ends at [t]. *)
Definition qualifying (t : datetime) (trades : list Trade.t) : list Trade.t :=
  filter (fun trade => (Trade.timestamp trade >=? t - five_minutes)%Z) trades.

Fixpoint total (xs : list Q) : Q :=
  match xs with
  | [] => 0
  | x :: xs' => x + total xs'
  end.

Fixpoint product (xs : list Q) : Q :=
  match xs with
  | [] => 1
  | x :: xs' => x * product xs'
  end.

(** The world after [n] more readings of the clock. *)
Definition advance (w : World) (n : nat) : World :=
  {| clock := clock w; reads := (n + reads w)%nat |}.

(** The volume-weighted stock prices of [symbols], each taken at the reading
    of the clock its turn gets. *)
Fixpoint prices_in_turn (self : GBCETrading.t)
    (EXCHANGE_STOCKS : dict stockRecord) (symbols : list string) (w : World)
    : list (result (option Q)) :=
  match symbols with
  | [] => []
  | symbol :: symbols' =>
      fst (GBCETrading.getVolumeWeightedStockPrice
             self EXCHANGE_STOCKS symbol w)
      :: prices_in_turn self EXCHANGE_STOCKS symbols' (advance w 1)
  end.

(** The geometric mean of [vs] with [pow] for the power; the exponent
    [1 / n] does not exist for no values at all, where Python's division
    raises. *)
Definition geometric_mean (pow : Q -> Q -> Q) (vs : list Q)
    : result (option Q) :=
  match vs with
  | [] => Raise ZeroDivisionError
  | _ :: _ =>
      Ok (Some (pow (product vs)
                    (1 / inject_Z (Z.of_nat (List.length vs)))))
  end.

(** ** Histories *)

(** The calls [self.recordTrade(t)] for the trades of a list, in order, up to
    the first that raises. *)
Fixpoint record_all (self : Stock.t) (trades : list Trade.t)
    (EXCHANGE_STOCKS : dict stockRecord)
    : result unit * Stock.t * dict stockRecord :=
  match trades with
  | [] => (Ok tt, self, EXCHANGE_STOCKS)
  | trade :: trades' =>
      match Stock.recordTrade self (Instance_Trade trade) EXCHANGE_STOCKS with
      | (Ok _, self', EXCHANGE_STOCKS') =>
          record_all self' trades' EXCHANGE_STOCKS'
      | failed => failed
      end
  end.

(** The cache holds, under the symbol of the stock, the history the object
    holds: what sharing one list between the two gives in the source. *)
Definition synced (self : Stock.t) (EXCHANGE_STOCKS : dict stockRecord)
    : Prop :=
  option_map TRADES (dict_get EXCHANGE_STOCKS (chars (Stock.symbol self)))
    = Some (Stock.trades self).

(** ** Sample data *)

(** A clock that shows one second more at every reading, started at zero. *)
Definition seconds : World :=
  {| clock := fun n => (Z.of_nat n * 1000000)%Z; reads := 0 |}.

(** The string constants of the module, one object each. *)
Definition TEA : str := {| id := 1; chars := "TEA" |}.
Definition GIN : str := {| id := 2; chars := "GIN" |}.

(** The same three letters in another string object, as a string built at
    run time is. *)
Definition TEA_built : str := {| id := 3; chars := "TEA" |}.

(** A clock that stands at ten minutes. *)
Definition at_600s : World :=
  {| clock := fun _ => 600000000%Z; reads := 0 |}.

(** The trades of the unit test: two at the time of the call, one seven
    minutes before it. *)
Definition trade1 : Trade.t :=
  {| Trade.symbol := TEA; Trade.quantity := 100; Trade.tradeType := BUY;
     Trade.price := 241 # 2; Trade.timestamp := 600000000%Z |}.
Definition trade2 : Trade.t :=
  {| Trade.symbol := TEA; Trade.quantity := 50; Trade.tradeType := SELL;
     Trade.price := 627 # 5; Trade.timestamp := 600000000%Z |}.
Definition trade3 : Trade.t :=
  {| Trade.symbol := TEA; Trade.quantity := 200; Trade.tradeType := BUY;
     Trade.price := 221 # 2; Trade.timestamp := 180000000%Z |}.

Definition stockTea_details : stockRecord :=
  {| TYPE := COMMON; LAST_DIVIDEND := 0; FIXED_DIVIDEND := None;
     PAR_VALUE := 100; TRADES := [trade1; trade2; trade3] |}.

(** The view of the unit test: TEA with its trades, GIN with none, so that
    the index is [None]. *)
Definition stockGin_details : stockRecord :=
  {| TYPE := COMMON; LAST_DIVIDEND := 20; FIXED_DIVIDEND := None;
     PAR_VALUE := 200; TRADES := [] |}.

Definition test_stocks : dict stockRecord :=
  [("GIN"%string, stockGin_details); ("TEA"%string, stockTea_details)].

(** The mappings the unit tests hand to the constructor; the fixed dividend
    of GIN is written into the mapping as it stands, not registered. *)
Definition stockComm : dict stockRecord :=
  [("POP"%string,
    {| TYPE := COMMON; LAST_DIVIDEND := 8; FIXED_DIVIDEND := None;
       PAR_VALUE := 100; TRADES := [] |})].

Definition stockPref : dict stockRecord :=
  [("GIN"%string,
    {| TYPE := PREFERRED; LAST_DIVIDEND := 24; FIXED_DIVIDEND := Some 14;
       PAR_VALUE := 250; TRADES := [] |})].

(** * Properties *)

(** ** The unit tests of the module *)

Example test_getDividendYield :
  let testObj := GBCETrading.__init__ (Some stockComm) in
  GBCETrading.getDividendYield testObj [] "POP" (PNum 160)
    = Ok (Some (8 / 160)) /\
  8 / 160 == 5 # 100 /\
  GBCETrading.getDividendYield testObj [] "POP" (PNum 0) = Ok None /\
  GBCETrading.getDividendYield testObj [] "POP" (PNum (-107 # 10))
    = Raise (ValueError PriceMustBePositiveNumber) /\
  GBCETrading.getDividendYield testObj [] "ABC" (PNum (247 # 10))
    = Raise (ValueError SymbolNotPresent).
Proof.
  cbv zeta. repeat split.
Qed.

Example test_getPERatio :
  let testObj2 := GBCETrading.__init__ (Some stockPref) in
  exists peratio,
    GBCETrading.getPERatio testObj2 [] "GIN" (PNum 350) = Ok (Some peratio) /\
    peratio == 35.
Proof.
  eexists. split; reflexivity.
Qed.

Example test_getVolumeWeightedStockPrice :
  let testObj := GBCETrading.__init__ None in
  exists price,
    fst (GBCETrading.getVolumeWeightedStockPrice testObj test_stocks "TEA"
           at_600s) = Ok (Some price) /\
    price == 18320 # 150 /\
    fst (GBCETrading.getVolumeWeightedStockPrice testObj test_stocks "GIN"
           at_600s) = Ok None /\
    fst (GBCETrading.getVolumeWeightedStockPrice testObj test_stocks "PQR"
           at_600s) = Raise (ValueError SymbolNotPresent).
Proof.
  eexists. repeat split.
Qed.

(** * General properties *)

(** ** Comparisons and dictionaries *)

Lemma Qlt_bool_iff (x y : Q) : Qlt_bool x y = true <-> x < y.
Proof.
  unfold Qlt_bool. rewrite negb_true_iff. split.
  - intros H. apply Qnot_le_lt. intros Hle.
    apply Qle_bool_iff in Hle. congruence.
  - intros H. destruct (Qle_bool y x) eqn:E; [|reflexivity].
    apply Qle_bool_iff in E. apply Qle_not_lt in E. contradiction.
Qed.

Lemma Qlt_bool_false_iff (x y : Q) : Qlt_bool x y = false <-> y <= x.
Proof.
  unfold Qlt_bool. rewrite negb_false_iff. apply Qle_bool_iff.
Qed.

Lemma dict_contains_get {V : Type} (d : dict V) (k : string) :
  dict_contains d k = true <-> exists v, dict_get d k = Some v.
Proof.
  unfold dict_contains. destruct (dict_get d k) as [v|].
  - split; [eauto | reflexivity].
  - split; [discriminate | intros [v Hv]; discriminate].
Qed.

Lemma dict_get_set_same {V : Type} (d : dict V) (k : string) (v : V) :
  dict_get (dict_set d k v) k = Some v.
Proof.
  induction d as [|[k' v'] d IH]; simpl.
  - now rewrite String.eqb_refl.
  - destruct (String.eqb k k') eqn:E; simpl; rewrite E; auto.
Qed.

Lemma dict_get_set_other {V : Type} (d : dict V) (k k0 : string) (v : V) :
  k0 <> k -> dict_get (dict_set d k v) k0 = dict_get d k0.
Proof.
  intros Hne. induction d as [|[k' v'] d IH]; simpl.
  - destruct (String.eqb k0 k) eqn:E; [|reflexivity].
    apply String.eqb_eq in E. contradiction.
  - destruct (String.eqb k k') eqn:E; simpl.
    + apply String.eqb_eq in E. subst k'.
      destruct (String.eqb k0 k) eqn:E0; [|reflexivity].
      apply String.eqb_eq in E0. contradiction.
    + now rewrite IH.
Qed.

Lemma dict_get_In {V : Type} (d : dict V) (k : string) (v : V) :
  dict_get d k = Some v -> In (k, v) d.
Proof.
  induction d as [|[k' v'] d IH]; simpl; [discriminate|].
  destruct (String.eqb k k') eqn:E.
  - apply String.eqb_eq in E. intros [= ->]. subst. now left.
  - intros H. right. auto.
Qed.

Lemma dict_get_key {V : Type} (d : dict V) (k : string) :
  In k (dict_keys d) -> dict_contains d k = true.
Proof.
  unfold dict_contains, dict_keys.
  induction d as [|[k' v'] d IH]; simpl; [tauto|].
  intros [-> | Hin].
  - now rewrite String.eqb_refl.
  - destruct (String.eqb k k'); [reflexivity | auto].
Qed.

(** ** Trade *)

Lemma Trade_init_inv (d : datetime) (symbol : str) (q : Q) (ty : TradeType)
    (p : Q) (ts : option datetime) (trade : Trade.t) :
  Trade.__init__ d symbol q ty p ts = Ok trade ->
  0 < q /\ 0 < p /\
  trade = {| Trade.symbol := symbol; Trade.quantity := q;
             Trade.tradeType := ty; Trade.price := p;
             Trade.timestamp := match ts with Some t => t | None => d end |}.
Proof.
  unfold Trade.__init__.
  destruct (Qlt_bool 0 q) eqn:Hq; [|discriminate].
  destruct (Qlt_bool 0 p) eqn:Hp; [|discriminate].
  intros [= <-]. apply Qlt_bool_iff in Hq, Hp. auto.
Qed.

Lemma Trade_init_valid (d : datetime) (symbol : str) (q : Q) (ty : TradeType)
    (p : Q) (ts : option datetime) (trade : Trade.t) :
  Trade.__init__ d symbol q ty p ts = Ok trade -> trade_valid trade.
Proof.
  intros H. apply Trade_init_inv in H as (Hq & Hp & ->). split; assumption.
Qed.

(** C9. Constructing a [Trade] succeeds exactly when the quantity and the
    price are both greater than zero.  A trade that is produced carries the
    quantity and price given, both positive; otherwise the construction
    raises a [ValueError], for the quantity when that is not positive and
    else for the price. *)
Theorem Trade_init_succeeds_iff_positive (d : datetime) (symbol : str)
    (q : Q) (ty : TradeType) (p : Q) (ts : option datetime) :
  ((exists trade, Trade.__init__ d symbol q ty p ts = Ok trade)
   <-> 0 < q /\ 0 < p) /\
  match Trade.__init__ d symbol q ty p ts with
  | Ok trade =>
      trade_valid trade /\ Trade.quantity trade = q /\ Trade.price trade = p
  | Raise e =>
      (e = ValueError QuantityShouldBePositive /\ q <= 0) \/
      (e = ValueError PriceShouldBePositive /\ 0 < q /\ p <= 0)
  end.
Proof.
  split.
  - split.
    + intros [trade H]. apply Trade_init_inv in H. tauto.
    + intros [Hq Hp]. apply Qlt_bool_iff in Hq, Hp.
      unfold Trade.__init__. rewrite Hq, Hp. eauto.
  - destruct (Trade.__init__ d symbol q ty p ts) as [trade|e] eqn:H.
    + pose proof (Trade_init_valid _ _ _ _ _ _ _ H) as Hv.
      apply Trade_init_inv in H as (_ & _ & ->). auto.
    + unfold Trade.__init__ in H.
      destruct (Qlt_bool 0 q) eqn:Hq.
      * destruct (Qlt_bool 0 p) eqn:Hp; [discriminate|].
        injection H as <-. right.
        apply Qlt_bool_iff in Hq. apply Qlt_bool_false_iff in Hp. auto.
      * injection H as <-. left.
        apply Qlt_bool_false_iff in Hq. auto.
Qed.

(** Without a [timestamp] argument the trade gets the default stored with
    the function, whatever the clock shows when it is constructed. *)
Lemma Trade_init_default_timestamp (d : datetime) (symbol : str) (q : Q)
    (ty : TradeType) (p : Q) (trade : Trade.t) :
  Trade.__init__ d symbol q ty p None = Ok trade ->
  Trade.timestamp trade = d.
Proof.
  intros H. apply Trade_init_inv in H as (_ & _ & ->). reflexivity.
Qed.

(** C4. The module is imported when the clock shows 0; ten seconds later a
    trade is constructed without a [timestamp] argument.  The trade's
    timestamp is 0, the time of the import, not the 10 seconds of its
    construction. *)
Theorem Trade_default_timestamp_is_import_time :
  let (timestamp_default, imported) := Trade.def___init__ seconds in
  let later := advance imported 9 in
  current_time later = 10000000%Z /\
  exists trade,
    Trade.__init__ timestamp_default TEA 100 BUY (241 # 2) None = Ok trade /\
    Trade.timestamp trade = 0%Z /\
    Trade.timestamp trade <> current_time later.
Proof.
  cbn. split; [reflexivity|].
  eexists. split; [reflexivity|]. split; [reflexivity | discriminate].
Qed.

(** ** Stock *)

Lemma addStockDetails_registered (self : Stock.t) (type : StockType)
    (lastDividend parValue : Q) (fixedDividend : option Q)
    (EXCHANGE_STOCKS : dict stockRecord) :
  registered
    (Stock.addStockDetails self type lastDividend parValue fixedDividend
       EXCHANGE_STOCKS)
    (chars (Stock.symbol self)) type lastDividend parValue fixedDividend.
Proof.
  unfold registered, Stock.addStockDetails.
  eexists. split; [apply dict_get_set_same|]. simpl. auto.
Qed.

Lemma addStockDetails_keeps_registered (self : Stock.t) (type : StockType)
    (lastDividend parValue : Q) (fixedDividend : option Q)
    (EXCHANGE_STOCKS : dict stockRecord)
    (k : string) (ty : StockType) (ld pv : Q) (fd : option Q) :
  k <> chars (Stock.symbol self) ->
  registered EXCHANGE_STOCKS k ty ld pv fd ->
  registered
    (Stock.addStockDetails self type lastDividend parValue fixedDividend
       EXCHANGE_STOCKS) k ty ld pv fd.
Proof.
  intros Hne (r & Hget & Hr). exists r. split; [|exact Hr].
  unfold Stock.addStockDetails. now rewrite dict_get_set_other.
Qed.

(** Recording a trade changes no detail but the trades. *)
Lemma recordTrade_keeps_registered (self : Stock.t) (trade : object)
    (EXCHANGE_STOCKS : dict stockRecord)
    (k : string) (ty : StockType) (ld pv : Q) (fd : option Q) :
  registered EXCHANGE_STOCKS k ty ld pv fd ->
  registered (snd (Stock.recordTrade self trade EXCHANGE_STOCKS))
             k ty ld pv fd.
Proof.
  intros (r & Hget & Hr). unfold Stock.recordTrade.
  destruct trade as [trade|v]; simpl; [|exists r; auto].
  destruct (negb _); simpl; [exists r; auto|].
  destruct (dict_get EXCHANGE_STOCKS (chars (Stock.symbol self)))
    as [r0|] eqn:Hself; simpl; [|exists r; auto].
  destruct (string_dec k (chars (Stock.symbol self))) as [->|Hne].
  - rewrite Hget in Hself. injection Hself as <-.
    eexists. split; [apply dict_get_set_same|]. exact Hr.
  - exists r. split; [|exact Hr]. now rewrite dict_get_set_other.
Qed.

(** A trade whose symbol is the very string object of the stock is appended
    to the history, in the object and in the cache. *)
Lemma recordTrade_same_object (self : Stock.t) (trade : Trade.t)
    (EXCHANGE_STOCKS : dict stockRecord) (r : stockRecord) :
  str_is (Stock.symbol self) (Trade.symbol trade) = true ->
  dict_get EXCHANGE_STOCKS (chars (Stock.symbol self)) = Some r ->
  exists self' EXCHANGE_STOCKS',
    Stock.recordTrade self (Instance_Trade trade) EXCHANGE_STOCKS
      = (Ok tt, self', EXCHANGE_STOCKS') /\
    Stock.trades self' = Stock.trades self ++ [trade] /\
    option_map TRADES
      (dict_get EXCHANGE_STOCKS' (chars (Stock.symbol self)))
      = Some (Stock.trades self ++ [trade]).
Proof.
  intros His Hget. unfold Stock.recordTrade. rewrite His, Hget. simpl.
  do 2 eexists. split; [reflexivity|]. split; [reflexivity|].
  now rewrite dict_get_set_same.
Qed.

(** Symbols that differ as strings are different objects, as long as one
    identity stands for one string: the trade is refused. *)
Lemma recordTrade_different_symbol (self : Stock.t) (trade : Trade.t)
    (EXCHANGE_STOCKS : dict stockRecord) :
  (id (Stock.symbol self) = id (Trade.symbol trade) ->
   Stock.symbol self = Trade.symbol trade) ->
  str_eq (Stock.symbol self) (Trade.symbol trade) = false ->
  Stock.recordTrade self (Instance_Trade trade) EXCHANGE_STOCKS
    = (Raise (ValueError TradeNotOfThisStock), self, EXCHANGE_STOCKS).
Proof.
  intros Hheap Hne. unfold Stock.recordTrade.
  destruct (str_is (Stock.symbol self) (Trade.symbol trade)) eqn:His;
    [|reflexivity].
  apply Nat.eqb_eq in His. apply Hheap in His.
  unfold str_eq in Hne. rewrite His, String.eqb_refl in Hne. discriminate.
Qed.

(** The trades of the cache stay valid when valid trades are recorded. *)
Lemma dict_set_trades_valid (d : dict stockRecord) (k : string)
    (r : stockRecord) :
  trades_valid d -> Forall trade_valid (TRADES r) ->
  trades_valid (dict_set d k r).
Proof.
  unfold trades_valid. intros Hd Hr.
  induction d as [|[k' v'] d IH]; simpl.
  - constructor; [exact Hr | constructor].
  - inversion Hd as [|? ? Hv Hd']; subst.
    destruct (String.eqb k k'); constructor; auto.
Qed.

Lemma addStockDetails_trades_valid (self : Stock.t) (type : StockType)
    (lastDividend parValue : Q) (fixedDividend : option Q)
    (EXCHANGE_STOCKS : dict stockRecord) :
  trades_valid EXCHANGE_STOCKS ->
  Forall trade_valid (Stock.trades self) ->
  trades_valid
    (Stock.addStockDetails self type lastDividend parValue fixedDividend
       EXCHANGE_STOCKS).
Proof.
  intros Hd Hs. unfold Stock.addStockDetails.
  apply dict_set_trades_valid; [exact Hd | exact Hs].
Qed.

Lemma recordTrade_trades_valid (self : Stock.t) (trade : Trade.t)
    (EXCHANGE_STOCKS : dict stockRecord) :
  trades_valid EXCHANGE_STOCKS ->
  Forall trade_valid (Stock.trades self) ->
  trade_valid trade ->
  trades_valid
    (snd (Stock.recordTrade self (Instance_Trade trade) EXCHANGE_STOCKS)).
Proof.
  intros Hd Hs Ht. unfold Stock.recordTrade.
  destruct (negb _); simpl; [exact Hd|].
  destruct (dict_get _ _) as [r|]; simpl; [|exact Hd].
  apply dict_set_trades_valid; [exact Hd|]. simpl.
  apply Forall_app. split; [exact Hs|]. constructor; [exact Ht | constructor].
Qed.

(** C5. The stock TEA is registered and a trade arrives whose symbol reads
    "TEA" but is another string object.  The two symbols are equal strings,
    yet [recordTrade] raises the mismatch error and leaves the history of
    the stock and the cache as they were: the comparison is by identity. *)
Theorem recordTrade_refuses_equal_symbol_of_other_identity :
  let stockTea := Stock.__init__ TEA in
  let EXCHANGE_STOCKS := Stock.addStockDetails stockTea COMMON 0 100 None [] in
  let trade :=
    {| Trade.symbol := TEA_built; Trade.quantity := 100;
       Trade.tradeType := BUY; Trade.price := 241 # 2;
       Trade.timestamp := 0%Z |} in
  str_eq (Stock.symbol stockTea) (Trade.symbol trade) = true /\
  trade_valid trade /\
  Stock.recordTrade stockTea (Instance_Trade trade) EXCHANGE_STOCKS
    = (Raise (ValueError TradeNotOfThisStock), stockTea, EXCHANGE_STOCKS).
Proof.
  cbv zeta. split; [reflexivity|]. split; [|reflexivity].
  split; reflexivity.
Qed.

(** ** Dividend yield and P/E ratio *)

Lemma truediv_nonzero (a b : Q) : ~ b == 0 -> truediv a b = Ok (a / b).
Proof.
  intros Hb. unfold truediv. destruct (Qeq_bool b 0) eqn:E; [|reflexivity].
  apply Qeq_bool_iff in E. contradiction.
Qed.

Lemma truediv_zero (a b : Q) : b == 0 -> truediv a b = Raise ZeroDivisionError.
Proof.
  intros Hb. unfold truediv. apply Qeq_bool_iff in Hb. now rewrite Hb.
Qed.

(** Past its two checks the yield is the quotient of its branch, with the
    division by zero turned into [None]. *)
Lemma getDividendYield_present (self : GBCETrading.t)
    (EXCHANGE_STOCKS : dict stockRecord) (symbol : string) (r : stockRecord)
    (p : Q) :
  dict_get (GBCETrading.view self EXCHANGE_STOCKS) symbol = Some r ->
  0 <= p ->
  GBCETrading.getDividendYield self EXCHANGE_STOCKS symbol (PNum p)
    = if StockType_eqb (TYPE r) COMMON
      then GBCETrading.except_ZeroDivisionError (truediv (LAST_DIVIDEND r) p)
      else GBCETrading.except_ZeroDivisionError
             (bindR (mul_opt (FIXED_DIVIDEND r) (PAR_VALUE r))
                    (fun n => truediv n p)).
Proof.
  intros Hget Hp. unfold GBCETrading.getDividendYield, dict_contains.
  rewrite Hget. simpl. apply Qlt_bool_false_iff in Hp. now rewrite Hp.
Qed.

(** The yield never lets a [ZeroDivisionError] out. *)
Lemma getDividendYield_no_ZeroDivisionError (self : GBCETrading.t)
    (EXCHANGE_STOCKS : dict stockRecord) (symbol : string) (price : pyval) :
  GBCETrading.getDividendYield self EXCHANGE_STOCKS symbol price
    <> Raise ZeroDivisionError.
Proof.
  unfold GBCETrading.getDividendYield.
  destruct (negb _); [discriminate|].
  destruct price as [|p|s]; try discriminate.
  destruct (Qlt_bool p 0); [discriminate|].
  destruct (dict_get _ _) as [r|]; [|discriminate].
  destruct (StockType_eqb _ _).
  - unfold truediv. destruct (Qeq_bool p 0); discriminate.
  - destruct (FIXED_DIVIDEND r); simpl; [|discriminate].
    unfold truediv. destruct (Qeq_bool p 0); discriminate.
Qed.

(** C1. For a stock registered in the view and a price greater than zero:
    a Common stock yields [lastDividend / price]; a Preferred stock that was
    registered with the fixed dividend percentage [p] yields
    [((p / 100) * parValue) / price], the percentage having been divided by
    100 when the stock was registered.  (A Preferred stock registered
    without a percentage makes the product with [None] raise a
    [TypeError].) *)
Theorem getDividendYield_of_registered (self : GBCETrading.t)
    (EXCHANGE_STOCKS : dict stockRecord) (symbol : string)
    (type : StockType) (lastDividend parValue : Q)
    (fixedDividendPercent : option Q) (price : Q) :
  registered (GBCETrading.view self EXCHANGE_STOCKS) symbol
             type lastDividend parValue fixedDividendPercent ->
  0 < price ->
  match type, fixedDividendPercent with
  | COMMON, _ =>
      GBCETrading.getDividendYield self EXCHANGE_STOCKS symbol (PNum price)
        = Ok (Some (lastDividend / price))
  | PREFERRED, Some p =>
      exists y,
        GBCETrading.getDividendYield self EXCHANGE_STOCKS symbol (PNum price)
          = Ok (Some y) /\
        y == ((p / 100) * parValue) / price
  | PREFERRED, None =>
      GBCETrading.getDividendYield self EXCHANGE_STOCKS symbol (PNum price)
        = Raise TypeError
  end.
Proof.
  intros (r & Hget & Hty & Hld & Hpv & Hfd) Hprice.
  assert (Hnz : ~ price == 0) by (intros E; rewrite E in Hprice; inversion Hprice).
  rewrite (getDividendYield_present _ _ _ _ _ Hget (Qlt_le_weak _ _ Hprice)).
  rewrite Hty, Hld, Hpv, Hfd.
  destruct type; simpl.
  - now rewrite truediv_nonzero.
  - destruct fixedDividendPercent as [p|]; simpl; [|reflexivity].
    destruct (Qeq_bool p 0) eqn:E; simpl; rewrite truediv_nonzero by exact Hnz;
      simpl; eexists; (split; [reflexivity|]).
    + apply Qeq_bool_iff in E. rewrite E. field. exact Hnz.
    + reflexivity.
Qed.

(** Registered as in the demonstration of the module: GIN, Preferred, last
    dividend 8, fixed dividend 2 percent, par value 100; queried at 2.2. *)
Lemma getDividendYield_of_registered_witness :
  exists y,
    GBCETrading.getDividendYield (GBCETrading.__init__ None)
      (Stock.addStockDetails (Stock.__init__ GIN) PREFERRED 8 100 (Some 2) [])
      "GIN"%string (PNum (11 # 5)) = Ok (Some y) /\
    y == ((2 / 100) * 100) / (11 # 5).
Proof.
  apply (getDividendYield_of_registered (GBCETrading.__init__ None)
           (Stock.addStockDetails (Stock.__init__ GIN) PREFERRED 8 100
              (Some 2) [])
           "GIN"%string PREFERRED 8 100 (Some 2) (11 # 5)).
  - eexists. split; [reflexivity|]. simpl. auto.
  - reflexivity.
Defined.

(** C6. GIN is registered as Preferred with the fixed dividend left at its
    default [None], and the yield is asked at price 0.  The product
    [None * parValue] is evaluated before the division and raises a
    [TypeError], which the handler of [ZeroDivisionError] around it does not
    catch: the call does not return [None].  The same stock registered with
    a percentage, and a Common stock, do return [None] at price 0. *)
Theorem getDividendYield_zero_price_raises_without_percentage :
  let stockGin := Stock.__init__ GIN in
  let stockPop := Stock.__init__ {| id := 4; chars := "POP" |} in
  let engine := GBCETrading.__init__ None in
  registered
    (GBCETrading.view engine
       (Stock.addStockDetails stockGin PREFERRED 8 100 None []))
    "GIN" PREFERRED 8 100 None /\
  GBCETrading.getDividendYield engine
    (Stock.addStockDetails stockGin PREFERRED 8 100 None [])
    "GIN" (PNum 0) = Raise TypeError /\
  GBCETrading.getDividendYield engine
    (Stock.addStockDetails stockGin PREFERRED 8 100 (Some 2) [])
    "GIN" (PNum 0) = Ok None /\
  GBCETrading.getDividendYield engine
    (Stock.addStockDetails stockPop COMMON 8 100 None [])
    "POP" (PNum 0) = Ok None.
Proof.
  cbv zeta. split.
  - eexists. split; [reflexivity|]. simpl. auto.
  - repeat split.
Qed.

(** At a price equal to zero the yield of a registered stock that is
    Common, or that was registered with a fixed dividend percentage, is
    [None] and nothing is raised; for a Preferred stock registered without a
    percentage the call raises a [TypeError]. *)
Lemma getDividendYield_zero_price_cases (self : GBCETrading.t)
    (EXCHANGE_STOCKS : dict stockRecord) (symbol : string)
    (type : StockType) (lastDividend parValue : Q)
    (fixedDividendPercent : option Q) (price : Q) :
  registered (GBCETrading.view self EXCHANGE_STOCKS) symbol
             type lastDividend parValue fixedDividendPercent ->
  price == 0 ->
  GBCETrading.getDividendYield self EXCHANGE_STOCKS symbol (PNum price)
    = match type, fixedDividendPercent with
      | PREFERRED, None => Raise TypeError
      | _, _ => Ok None
      end.
Proof.
  intros (r & Hget & Hty & Hld & Hpv & Hfd) Hprice.
  assert (Hle : 0 <= price) by (rewrite Hprice; apply Qle_refl).
  rewrite (getDividendYield_present _ _ _ _ _ Hget Hle).
  rewrite Hty, Hfd.
  destruct type; simpl.
  - now rewrite truediv_zero.
  - destruct fixedDividendPercent as [p|]; simpl; [|reflexivity].
    destruct (Qeq_bool p 0); simpl; now rewrite truediv_zero.
Qed.

(** C7. Whenever the yield of a symbol at a price is a number other than
    zero, the P/E ratio is the price divided by that yield; whenever the
    yield is [None] or zero, the P/E ratio is [None] and nothing is raised.
    A [TypeError] out of the yield is swallowed into [None] as well, and the
    errors of the two checks come out of the P/E ratio as they come out of
    the yield. *)
Theorem getPERatio_from_getDividendYield (self : GBCETrading.t)
    (EXCHANGE_STOCKS : dict stockRecord) (symbol : string) (price : pyval) :
  match GBCETrading.getDividendYield self EXCHANGE_STOCKS symbol price with
  | Ok (Some dividendYield) =>
      exists p, price = PNum p /\
        GBCETrading.getPERatio self EXCHANGE_STOCKS symbol price
          = if Qeq_bool dividendYield 0 then Ok None
            else Ok (Some (p / dividendYield))
  | Ok None =>
      GBCETrading.getPERatio self EXCHANGE_STOCKS symbol price = Ok None
  | Raise TypeError =>
      GBCETrading.getPERatio self EXCHANGE_STOCKS symbol price = Ok None
  | Raise e =>
      GBCETrading.getPERatio self EXCHANGE_STOCKS symbol price = Raise e
  end.
Proof.
  pose proof (getDividendYield_no_ZeroDivisionError
                self EXCHANGE_STOCKS symbol price) as Hnz.
  unfold GBCETrading.getPERatio.
  destruct (GBCETrading.getDividendYield self EXCHANGE_STOCKS symbol price)
    as [[y|]|e] eqn:Hdy.
  - unfold GBCETrading.getDividendYield in Hdy.
    destruct (negb _); [discriminate|].
    destruct price as [|p|s]; try discriminate.
    destruct (Qlt_bool p 0); [discriminate|].
    exists p. split; [reflexivity|].
    simpl. unfold truediv. destruct (Qeq_bool y 0); reflexivity.
  - unfold GBCETrading.getDividendYield in Hdy.
    destruct (negb _); [discriminate|].
    destruct price as [|p|s]; try discriminate.
    destruct (Qlt_bool p 0); [discriminate|]. reflexivity.
  - unfold GBCETrading.getDividendYield in Hdy.
    destruct (negb _).
    { injection Hdy as <-. reflexivity. }
    destruct price as [|p|s].
    + injection Hdy as <-. reflexivity.
    + destruct (Qlt_bool p 0).
      { injection Hdy as <-. reflexivity. }
      simpl. destruct e as [m| | |]; try reflexivity. congruence.
    + injection Hdy as <-. reflexivity.
Qed.

(** With the symbol in the view and a number that is at least zero for the
    price, the P/E ratio returns and does not raise. *)
Lemma getPERatio_returns (self : GBCETrading.t)
    (EXCHANGE_STOCKS : dict stockRecord) (symbol : string) (p : Q) :
  dict_contains (GBCETrading.view self EXCHANGE_STOCKS) symbol = true ->
  0 <= p ->
  exists peratio,
    GBCETrading.getPERatio self EXCHANGE_STOCKS symbol (PNum p) = Ok peratio.
Proof.
  intros Hin Hp. apply dict_contains_get in Hin as [r Hget].
  pose proof (getDividendYield_present _ _ _ _ _ Hget Hp) as Hdy.
  unfold GBCETrading.getPERatio, dict_contains. rewrite Hget. simpl.
  apply Qlt_bool_false_iff in Hp. rewrite Hp, Hdy.
  destruct (StockType_eqb _ _).
  - unfold truediv at 1. destruct (Qeq_bool p 0); simpl; [eauto|].
    unfold truediv. destruct (Qeq_bool _ 0); eauto.
  - destruct (FIXED_DIVIDEND r); simpl; [|eauto].
    unfold truediv at 1. destruct (Qeq_bool p 0); simpl; [eauto|].
    unfold truediv. destruct (Qeq_bool _ 0); eauto.
Qed.

(** C8. Both queries check the symbol first and the price second.  A symbol
    that is not in the view raises the not-found error; with the symbol in
    the view, a price that is not a number or is below zero raises the
    validation error; a price that passes, and 0 does, raises neither of the
    two.  Both errors are [ValueError]s, so that such a price makes either
    query raise a [ValueError] whatever the symbol. *)
Theorem queries_validate_symbol_then_price (self : GBCETrading.t)
    (EXCHANGE_STOCKS : dict stockRecord) (symbol : string) (price : pyval) :
  let dividendYield :=
    GBCETrading.getDividendYield self EXCHANGE_STOCKS symbol price in
  let peratio :=
    GBCETrading.getPERatio self EXCHANGE_STOCKS symbol price in
  number_ge_0 (PNum 0) = true /\
  (if number_ge_0 price then True
   else (exists m, dividendYield = Raise (ValueError m)) /\
        (exists m, peratio = Raise (ValueError m))) /\
  if dict_contains (GBCETrading.view self EXCHANGE_STOCKS) symbol then
    if number_ge_0 price then
      (forall m, dividendYield <> Raise (ValueError m)) /\
      (forall m, peratio <> Raise (ValueError m))
    else
      dividendYield = Raise (ValueError PriceMustBePositiveNumber) /\
      peratio = Raise (ValueError PriceMustBePositiveNumber)
  else
    dividendYield = Raise (ValueError SymbolNotPresent) /\
    peratio = Raise (ValueError SymbolNotPresent).
Proof.
  cbv zeta. split; [reflexivity|].
  assert (Hbad : number_ge_0 price = false ->
            GBCETrading.getDividendYield self EXCHANGE_STOCKS symbol price
              = Raise (ValueError
                         (if dict_contains
                               (GBCETrading.view self EXCHANGE_STOCKS) symbol
                          then PriceMustBePositiveNumber
                          else SymbolNotPresent)) /\
            GBCETrading.getPERatio self EXCHANGE_STOCKS symbol price
              = Raise (ValueError
                         (if dict_contains
                               (GBCETrading.view self EXCHANGE_STOCKS) symbol
                          then PriceMustBePositiveNumber
                          else SymbolNotPresent))).
  { intros Hp. unfold GBCETrading.getDividendYield, GBCETrading.getPERatio.
    destruct (dict_contains _ _); simpl; [|auto].
    destruct price as [|p|s]; simpl in Hp; auto.
    unfold Qlt_bool. rewrite Hp. auto. }
  split.
  { destruct (number_ge_0 price); [exact I|].
    destruct (Hbad eq_refl) as [-> ->]. eauto. }
  clear Hbad.
  destruct (dict_contains (GBCETrading.view self EXCHANGE_STOCKS) symbol)
    eqn:Hin.
  - destruct price as [|p|s]; simpl.
    + unfold GBCETrading.getDividendYield, GBCETrading.getPERatio.
      rewrite Hin. auto.
    + destruct (Qle_bool 0 p) eqn:Hp.
      * apply Qle_bool_iff in Hp. split; intros m.
        -- apply dict_contains_get in Hin as [r Hget].
           rewrite (getDividendYield_present _ _ _ _ _ Hget Hp).
           destruct (StockType_eqb _ _).
           ++ unfold truediv. destruct (Qeq_bool p 0); discriminate.
           ++ destruct (FIXED_DIVIDEND r); simpl; [|discriminate].
              unfold truediv. destruct (Qeq_bool p 0); discriminate.
        -- destruct (getPERatio_returns _ _ _ _ Hin Hp) as [v ->].
           discriminate.
      * unfold GBCETrading.getDividendYield, GBCETrading.getPERatio.
        rewrite Hin. unfold Qlt_bool. rewrite Hp. auto.
    + unfold GBCETrading.getDividendYield, GBCETrading.getPERatio.
      rewrite Hin. auto.
  - unfold GBCETrading.getDividendYield, GBCETrading.getPERatio.
    rewrite Hin. auto.
Qed.

(** ** Volume-weighted stock price *)

Lemma fold_left_Qplus (xs : list Q) (a : Q) :
  fold_left Qplus xs a == a + total xs.
Proof.
  revert a. induction xs as [|x xs IH]; intros a; simpl.
  - ring.
  - rewrite IH. ring.
Qed.

Lemma sum_total (xs : list Q) : sum xs == total xs.
Proof.
  unfold sum. rewrite fold_left_Qplus. ring.
Qed.

Lemma total_quantity_nonneg (trades : list Trade.t) :
  Forall trade_valid trades -> 0 <= total (map Trade.quantity trades).
Proof.
  induction 1 as [|trade trades [Hq _] _ IH]; simpl; lra.
Qed.

Lemma total_quantity_positive (trades : list Trade.t) :
  Forall trade_valid trades -> trades <> [] ->
  0 < total (map Trade.quantity trades).
Proof.
  intros Hv Hne. destruct Hv as [|trade trades [Hq _] Hv]; [congruence|].
  apply total_quantity_nonneg in Hv. simpl. lra.
Qed.

(** The test of the comprehension is the lower bound of the window. *)
Lemma in_window_qualifying (t : datetime) (trades : list Trade.t) :
  filter (GBCETrading.in_window t) trades = qualifying t trades.
Proof.
  unfold qualifying. apply filter_ext. intros trade.
  unfold GBCETrading.in_window. now rewrite Z.geb_leb.
Qed.

Lemma qualifying_In (t : datetime) (trades : list Trade.t) (trade : Trade.t) :
  In trade (qualifying t trades) <->
  In trade trades /\ (Trade.timestamp trade >= t - five_minutes)%Z.
Proof.
  unfold qualifying. rewrite filter_In, Z.geb_leb, Z.leb_le, Z.ge_le_iff.
  reflexivity.
Qed.

Lemma qualifying_valid (t : datetime) (trades : list Trade.t) :
  Forall trade_valid trades -> Forall trade_valid (qualifying t trades).
Proof.
  intros Hv. apply Forall_forall. intros trade Hin.
  apply qualifying_In in Hin as [Hin _].
  revert trade Hin. now apply Forall_forall.
Qed.

(** What a call for a symbol of the view does: one reading of the clock,
    then the quotient over the trades of the window. *)
Lemma getVolumeWeightedStockPrice_present (self : GBCETrading.t)
    (EXCHANGE_STOCKS : dict stockRecord) (symbol : string) (r : stockRecord)
    (w : World) :
  dict_get (GBCETrading.view self EXCHANGE_STOCKS) symbol = Some r ->
  GBCETrading.getVolumeWeightedStockPrice self EXCHANGE_STOCKS symbol w
    = (match qualifying (current_time w) (TRADES r) with
       | [] => Ok None
       | kept =>
           bindR (truediv (sum (map Trade.totalPrice kept))
                          (sum (map Trade.quantity kept)))
                 (fun v => Ok (Some v))
       end,
       advance w 1).
Proof.
  intros Hget.
  unfold GBCETrading.getVolumeWeightedStockPrice, dict_contains.
  rewrite Hget. simpl. unfold bind, now. simpl.
  rewrite in_window_qualifying.
  destruct (qualifying (current_time w) (TRADES r)) as [|trade kept]; simpl.
  - reflexivity.
  - unfold lift, ret.
    destruct (truediv _ _); reflexivity.
Qed.

(** With valid trades the divisor is positive and the quotient exists. *)
Lemma getVolumeWeightedStockPrice_valid (self : GBCETrading.t)
    (EXCHANGE_STOCKS : dict stockRecord) (symbol : string) (r : stockRecord)
    (w : World) :
  dict_get (GBCETrading.view self EXCHANGE_STOCKS) symbol = Some r ->
  Forall trade_valid (TRADES r) ->
  GBCETrading.getVolumeWeightedStockPrice self EXCHANGE_STOCKS symbol w
    = (match qualifying (current_time w) (TRADES r) with
       | [] => Ok None
       | kept =>
           Ok (Some (sum (map Trade.totalPrice kept)
                     / sum (map Trade.quantity kept)))
       end,
       advance w 1).
Proof.
  intros Hget Hv.
  rewrite (getVolumeWeightedStockPrice_present _ _ _ _ _ Hget).
  pose proof (qualifying_valid (current_time w) _ Hv) as Hk.
  destruct (qualifying (current_time w) (TRADES r)) as [|trade kept];
    [reflexivity|].
  assert (Hpos : 0 < total (map Trade.quantity (trade :: kept)))
    by (apply total_quantity_positive; [exact Hk | discriminate]).
  cbv beta iota zeta. rewrite truediv_nonzero; [reflexivity|].
  rewrite sum_total. intros E. rewrite E in Hpos. inversion Hpos.
Qed.

(** C2. For a stock of the view whose trades were produced by the
    constructor, a call at the time the clock shows keeps the trades with
    [timestamp >= now - 5 minutes].  With none kept the result is [None];
    otherwise it is the sum of [quantity * price] over the kept trades
    divided by the sum of their quantities. *)
Theorem getVolumeWeightedStockPrice_over_window (self : GBCETrading.t)
    (EXCHANGE_STOCKS : dict stockRecord) (symbol : string) (r : stockRecord)
    (w : World) :
  dict_get (GBCETrading.view self EXCHANGE_STOCKS) symbol = Some r ->
  Forall trade_valid (TRADES r) ->
  match qualifying (current_time w) (TRADES r) with
  | [] =>
      fst (GBCETrading.getVolumeWeightedStockPrice
             self EXCHANGE_STOCKS symbol w) = Ok None
  | trade :: kept =>
      exists v,
        fst (GBCETrading.getVolumeWeightedStockPrice
               self EXCHANGE_STOCKS symbol w) = Ok (Some v) /\
        v == total (map (fun t => Trade.quantity t * Trade.price t)
                        (trade :: kept))
             / total (map Trade.quantity (trade :: kept))
  end.
Proof.
  intros Hget Hv.
  rewrite (getVolumeWeightedStockPrice_valid _ _ _ _ _ Hget Hv).
  destruct (qualifying (current_time w) (TRADES r)) as [|trade kept];
    [reflexivity|].
  cbn [fst]. eexists. split; [reflexivity|].
  rewrite !sum_total. reflexivity.
Qed.

Lemma getVolumeWeightedStockPrice_over_window_witness :
  exists v,
    fst (GBCETrading.getVolumeWeightedStockPrice
           (GBCETrading.__init__ None) [("TEA"%string, stockTea_details)]
           "TEA"%string at_600s) = Ok (Some v) /\
    v == total (map (fun t => Trade.quantity t * Trade.price t)
                    [trade1; trade2])
         / total (map Trade.quantity [trade1; trade2]).
Proof.
  apply (getVolumeWeightedStockPrice_over_window
           (GBCETrading.__init__ None) [("TEA"%string, stockTea_details)]
           "TEA"%string stockTea_details at_600s).
  - reflexivity.
  - simpl. repeat constructor.
Defined.

(** ** All-share index *)

Lemma Qmult_assoc_eq (a b c : Q) : a * b * c = a * (b * c).
Proof.
  destruct a, b, c. unfold Qmult. simpl.
  now rewrite Z.mul_assoc, Pos.mul_assoc.
Qed.

Lemma Qmult_1_l_eq (a : Q) : 1 * a = a.
Proof.
  destruct a as [n d]. unfold Qmult. simpl. now destruct n.
Qed.

Lemma Qmult_1_r_eq (a : Q) : a * 1 = a.
Proof.
  destruct a as [n d]. unfold Qmult. simpl.
  now rewrite Z.mul_1_r, Pos.mul_1_r.
Qed.

(** [reduce] multiplies from the left; over numbers it is the product. *)
Lemma reduce_mul_product (vs : list Q) (initial : Q) :
  GBCETrading.reduce_mul (map Some vs) initial = Ok (initial * product vs).
Proof.
  unfold GBCETrading.reduce_mul. revert initial.
  induction vs as [|v vs IH]; intros initial; simpl.
  - now rewrite Qmult_1_r_eq.
  - rewrite IH. now rewrite Qmult_assoc_eq.
Qed.

Lemma contains_None_In (vs : list (option Q)) :
  GBCETrading.contains_None vs = true <-> In None vs.
Proof.
  unfold GBCETrading.contains_None. rewrite existsb_exists. split.
  - intros [[v|] [Hin Hv]]; [discriminate | exact Hin].
  - intros Hin. exists None. auto.
Qed.

Lemma contains_None_map_Some (vs : list Q) :
  GBCETrading.contains_None (map Some vs) = false.
Proof.
  induction vs as [|v vs IH]; simpl; auto.
Qed.

Lemma advance_advance (w : World) (n m : nat) :
  advance (advance w n) m = advance w (m + n).
Proof.
  unfold advance. simpl. now rewrite Nat.add_assoc.
Qed.

(** With valid trades the price of a symbol of the view is a number or
    [None], never an exception, and costs one reading of the clock. *)
Lemma getVolumeWeightedStockPrice_returns (self : GBCETrading.t)
    (EXCHANGE_STOCKS : dict stockRecord) (symbol : string) (w : World) :
  trades_valid (GBCETrading.view self EXCHANGE_STOCKS) ->
  In symbol (dict_keys (GBCETrading.view self EXCHANGE_STOCKS)) ->
  exists v,
    GBCETrading.getVolumeWeightedStockPrice self EXCHANGE_STOCKS symbol w
      = (Ok v, advance w 1).
Proof.
  intros Hvalid Hin. apply dict_get_key, dict_contains_get in Hin as [r Hget].
  assert (Hv : Forall trade_valid (TRADES r)).
  { apply dict_get_In in Hget. unfold trades_valid in Hvalid.
    rewrite Forall_forall in Hvalid. exact (Hvalid _ Hget). }
  rewrite (getVolumeWeightedStockPrice_valid _ _ _ _ _ Hget Hv).
  destruct (qualifying (current_time w) (TRADES r)); eauto.
Qed.

Lemma prices_in_turn_length (self : GBCETrading.t)
    (EXCHANGE_STOCKS : dict stockRecord) (symbols : list string) (w : World) :
  List.length (prices_in_turn self EXCHANGE_STOCKS symbols w)
    = List.length symbols.
Proof.
  revert w. induction symbols as [|symbol symbols IH]; intros w; simpl; auto.
Qed.

(** The comprehension over symbols of the view collects their prices in
    turn. *)
Lemma mapM_prices_in_turn (self : GBCETrading.t)
    (EXCHANGE_STOCKS : dict stockRecord) (symbols : list string) (w : World) :
  trades_valid (GBCETrading.view self EXCHANGE_STOCKS) ->
  incl symbols (dict_keys (GBCETrading.view self EXCHANGE_STOCKS)) ->
  exists vs,
    prices_in_turn self EXCHANGE_STOCKS symbols w = map Ok vs /\
    mapM (GBCETrading.getVolumeWeightedStockPrice self EXCHANGE_STOCKS)
         symbols w
      = (Ok vs, advance w (List.length symbols)).
Proof.
  intros Hvalid. revert w.
  induction symbols as [|symbol symbols IH]; intros w Hincl.
  - exists []. split; [reflexivity|]. destruct w. reflexivity.
  - assert (Hin : In symbol
                    (dict_keys (GBCETrading.view self EXCHANGE_STOCKS)))
      by (apply Hincl; now left).
    destruct (getVolumeWeightedStockPrice_returns
                self EXCHANGE_STOCKS symbol w Hvalid Hin) as [v Hv].
    destruct (IH (advance w 1)) as (vs & Hps & Hrun).
    { intros s Hs. apply Hincl. now right. }
    exists (v :: vs). split.
    + simpl. now rewrite Hv, Hps.
    + simpl. unfold bind at 1. rewrite Hv.
      unfold bind at 1. rewrite Hrun. unfold ret.
      rewrite advance_advance, Nat.add_1_r. reflexivity.
Qed.

Lemma truediv_1_len {V : Type} (d : dict V) :
  d <> [] ->
  truediv 1 (GBCETrading.len d)
    = Ok (1 / inject_Z (Z.of_nat (List.length d))).
Proof.
  intros Hne. apply truediv_nonzero. unfold GBCETrading.len.
  destruct d as [|e d]; [congruence|]. intros E.
  unfold Qeq in E. simpl in E. lia.
Qed.

(** C3. In a view whose trades were produced by the constructor, take the
    volume-weighted stock price of every symbol, each at the reading of the
    clock its turn gets; none of them is an exception.  If one of them is
    [None], the index is [None]; if all are numbers, the index is their
    product raised to the power 1 / (number of symbols). *)
Theorem getGBCEAllShareIndex_geometric_mean (pow : Q -> Q -> Q)
    (self : GBCETrading.t) (EXCHANGE_STOCKS : dict stockRecord) (w : World) :
  trades_valid (GBCETrading.view self EXCHANGE_STOCKS) ->
  exists prices : list (option Q),
    prices_in_turn self EXCHANGE_STOCKS
      (dict_keys (GBCETrading.view self EXCHANGE_STOCKS)) w
      = map Ok prices /\
    (In None prices ->
     fst (GBCETrading.getGBCEAllShareIndex pow self EXCHANGE_STOCKS w)
       = Ok None) /\
    (forall vs, prices = map Some vs ->
     fst (GBCETrading.getGBCEAllShareIndex pow self EXCHANGE_STOCKS w)
       = geometric_mean pow vs).
Proof.
  intros Hvalid.
  destruct (mapM_prices_in_turn self EXCHANGE_STOCKS
              (dict_keys (GBCETrading.view self EXCHANGE_STOCKS)) w
              Hvalid (incl_refl _)) as (prices & Hps & Hrun).
  exists prices. split; [exact Hps|].
  assert (Hlen : List.length prices
                 = List.length (GBCETrading.view self EXCHANGE_STOCKS)).
  { apply (f_equal (@List.length _)) in Hps.
    revert Hps. unfold dict_keys.
    rewrite prices_in_turn_length, !length_map. auto. }
  unfold GBCETrading.getGBCEAllShareIndex. split.
  - intros Hnone. apply contains_None_In in Hnone.
    unfold bind at 1. rewrite Hrun, Hnone. reflexivity.
  - intros vs ->. unfold bind at 1.
    rewrite Hrun, contains_None_map_Some. simpl negb. cbv iota.
    unfold bind, lift, ret.
    rewrite reduce_mul_product, Qmult_1_l_eq.
    rewrite length_map in Hlen.
    destruct vs as [|v vs].
    + destruct (GBCETrading.view self EXCHANGE_STOCKS); [|discriminate].
      reflexivity.
    + rewrite truediv_1_len
        by (destruct (GBCETrading.view self EXCHANGE_STOCKS); discriminate).
      simpl fst. unfold geometric_mean. now rewrite Hlen.
Qed.

Lemma getGBCEAllShareIndex_geometric_mean_witness :
  exists prices : list (option Q),
    prices_in_turn (GBCETrading.__init__ None) test_stocks
      (dict_keys (GBCETrading.view (GBCETrading.__init__ None) test_stocks))
      at_600s = map Ok prices /\
    (In None prices ->
     fst (GBCETrading.getGBCEAllShareIndex Qmult
            (GBCETrading.__init__ None) test_stocks at_600s) = Ok None) /\
    (forall vs, prices = map Some vs ->
     fst (GBCETrading.getGBCEAllShareIndex Qmult
            (GBCETrading.__init__ None) test_stocks at_600s)
       = geometric_mean Qmult vs).
Proof.
  apply (getGBCEAllShareIndex_geometric_mean Qmult
           (GBCETrading.__init__ None) test_stocks at_600s).
  simpl. repeat constructor.
Defined.

(** A view is empty only when the cache is: an empty mapping passed to the
    constructor is replaced by the cache, as [None] is. *)
Lemma view_empty_iff (stocks : option (dict stockRecord))
    (EXCHANGE_STOCKS : dict stockRecord) :
  GBCETrading.view (GBCETrading.__init__ stocks) EXCHANGE_STOCKS = [] <->
  EXCHANGE_STOCKS = [] /\ (stocks = None \/ stocks = Some []).
Proof.
  destruct stocks as [[|e d]|]; simpl; split;
    try (intros H; discriminate H); try tauto.
  intros [_ [H|H]]; discriminate H.
Qed.

(** C10. For a view of no symbols the index raises a [ZeroDivisionError]:
    nothing is [None] in the empty list of prices, and the exponent
    [1 / len(self.stocks)] divides by zero.  The clock is not read. *)
Theorem getGBCEAllShareIndex_empty_view (pow : Q -> Q -> Q)
    (self : GBCETrading.t) (EXCHANGE_STOCKS : dict stockRecord) (w : World) :
  GBCETrading.view self EXCHANGE_STOCKS = [] ->
  GBCETrading.getGBCEAllShareIndex pow self EXCHANGE_STOCKS w
    = (Raise ZeroDivisionError, w).
Proof.
  intros Hempty. unfold GBCETrading.getGBCEAllShareIndex.
  rewrite Hempty. reflexivity.
Qed.

Lemma getGBCEAllShareIndex_empty_view_witness :
  GBCETrading.getGBCEAllShareIndex Qmult
    (GBCETrading.__init__ (Some [])) [] seconds
    = (Raise ZeroDivisionError, seconds).
Proof.
  apply (getGBCEAllShareIndex_empty_view Qmult
           (GBCETrading.__init__ (Some [])) [] seconds).
  reflexivity.
Defined.

(** * Further properties of the module *)

(** ** Registering and recording *)

Lemma dict_set_keys_present {V : Type} (d : dict V) (k : string) (v : V) :
  dict_contains d k = true -> dict_keys (dict_set d k v) = dict_keys d.
Proof.
  unfold dict_contains, dict_keys.
  induction d as [|[k' v'] d IH]; simpl; [discriminate|].
  destruct (String.eqb k k') eqn:E; simpl; [reflexivity|].
  intros H. now rewrite IH.
Qed.

Lemma dict_set_keys_absent {V : Type} (d : dict V) (k : string) (v : V) :
  dict_contains d k = false -> dict_keys (dict_set d k v) = dict_keys d ++ [k].
Proof.
  unfold dict_contains, dict_keys.
  induction d as [|[k' v'] d IH]; simpl; [reflexivity|].
  destruct (String.eqb k k') eqn:E; simpl; [discriminate|].
  intros H. now rewrite IH.
Qed.

Lemma dict_contains_keys {V : Type} (d : dict V) (k : string) :
  dict_contains d k = false -> ~ In k (dict_keys d).
Proof.
  intros Hc Hin. apply dict_get_key in Hin. congruence.
Qed.

(** X1. [recordTrade] called for a list of trades whose symbols are the
    string object of a registered stock succeeds for all of them: the
    history of the object is the old one followed by the trades in the order
    of the calls, and after at least one call the cache holds the same
    history. *)
Theorem record_all_appends_in_order (self : Stock.t) (trades : list Trade.t)
    (EXCHANGE_STOCKS : dict stockRecord) :
  dict_contains EXCHANGE_STOCKS (chars (Stock.symbol self)) = true ->
  Forall (fun trade => str_is (Stock.symbol self) (Trade.symbol trade) = true)
         trades ->
  exists self' EXCHANGE_STOCKS',
    record_all self trades EXCHANGE_STOCKS = (Ok tt, self', EXCHANGE_STOCKS') /\
    Stock.symbol self' = Stock.symbol self /\
    Stock.trades self' = Stock.trades self ++ trades /\
    List.length (Stock.trades self')
      = (List.length (Stock.trades self) + List.length trades)%nat /\
    (trades <> [] -> synced self' EXCHANGE_STOCKS').
Proof.
  revert self EXCHANGE_STOCKS.
  induction trades as [|trade trades IH];
    intros self EXCHANGE_STOCKS Hreg Hsym.
  - exists self, EXCHANGE_STOCKS. simpl.
    rewrite app_nil_r, Nat.add_0_r. repeat split; congruence.
  - inversion Hsym as [|? ? His Hsym']; subst.
    apply dict_contains_get in Hreg as [r Hget].
    cbn [record_all]. unfold Stock.recordTrade. rewrite His, Hget.
    cbn [negb]. cbv beta iota.
    set (self1 := {| Stock.symbol := Stock.symbol self;
                     Stock.trades := Stock.trades self ++ [trade] |}).
    set (EX1 := dict_set EXCHANGE_STOCKS (chars (Stock.symbol self))
                  (Stock.set_TRADES r (Stock.trades self ++ [trade]))).
    assert (Hget1 : dict_get EX1 (chars (Stock.symbol self1))
                    = Some (Stock.set_TRADES r (Stock.trades self1)))
      by apply dict_get_set_same.
    destruct (IH self1 EX1) as (self' & EX' & Hrun & Hs & Ht & _ & Hsync).
    { apply dict_contains_get. eauto. }
    { exact Hsym'. }
    exists self', EX'. split; [exact Hrun|]. split; [exact Hs|].
    assert (Htr : Stock.trades self' = Stock.trades self ++ trade :: trades)
      by (rewrite Ht; simpl; now rewrite <- app_assoc).
    split; [exact Htr|]. split.
    + rewrite Htr, length_app. reflexivity.
    + intros _. destruct trades as [|trade' trades'].
      * simpl in Hrun. injection Hrun as <- <-.
        unfold synced. now rewrite Hget1.
      * apply Hsync. discriminate.
Qed.

Lemma record_all_appends_in_order_witness :
  exists self' EXCHANGE_STOCKS',
    record_all (Stock.__init__ TEA) [trade1; trade2; trade3]
      (Stock.addStockDetails (Stock.__init__ TEA) COMMON 0 100 None [])
      = (Ok tt, self', EXCHANGE_STOCKS') /\
    Stock.symbol self' = Stock.symbol (Stock.__init__ TEA) /\
    Stock.trades self'
      = Stock.trades (Stock.__init__ TEA) ++ [trade1; trade2; trade3] /\
    List.length (Stock.trades self')
      = (List.length (Stock.trades (Stock.__init__ TEA))
         + List.length [trade1; trade2; trade3])%nat /\
    ([trade1; trade2; trade3] <> [] -> synced self' EXCHANGE_STOCKS').
Proof.
  apply (record_all_appends_in_order (Stock.__init__ TEA)
           [trade1; trade2; trade3]
           (Stock.addStockDetails (Stock.__init__ TEA) COMMON 0 100 None [])).
  - reflexivity.
  - repeat constructor.
Defined.

(** X2. Whatever its outcome, [recordTrade] adds no symbol to the cache and
    removes none, keeps their order, leaves the record of every other symbol
    as it was, and does not change the symbol of the stock. *)
Theorem recordTrade_frame (self : Stock.t) (trade : object)
    (EXCHANGE_STOCKS : dict stockRecord) :
  let '(_, self', EXCHANGE_STOCKS') :=
    Stock.recordTrade self trade EXCHANGE_STOCKS in
  dict_keys EXCHANGE_STOCKS' = dict_keys EXCHANGE_STOCKS /\
  Stock.symbol self' = Stock.symbol self /\
  forall k, k <> chars (Stock.symbol self) ->
            dict_get EXCHANGE_STOCKS' k = dict_get EXCHANGE_STOCKS k.
Proof.
  unfold Stock.recordTrade.
  destruct trade as [trade|v]; [|auto].
  destruct (negb _); [auto|].
  destruct (dict_get EXCHANGE_STOCKS (chars (Stock.symbol self)))
    as [r|] eqn:Hget; [|auto].
  split; [|split; [reflexivity|]].
  - apply dict_set_keys_present. apply dict_contains_get. eauto.
  - intros k Hk. now apply dict_get_set_other.
Qed.

(** X3. For a stock that was never registered, [recordTrade] raises a
    [KeyError] from indexing the cache, after the trade has been appended to
    the history of the object; the cache is as it was.  Registering the
    stock afterwards puts this history, the trade included, into the
    cache. *)
Theorem recordTrade_unregistered (self : Stock.t) (trade : Trade.t)
    (EXCHANGE_STOCKS : dict stockRecord)
    (type : StockType) (lastDividend parValue : Q)
    (fixedDividend : option Q) :
  dict_contains EXCHANGE_STOCKS (chars (Stock.symbol self)) = false ->
  str_is (Stock.symbol self) (Trade.symbol trade) = true ->
  exists self',
    Stock.recordTrade self (Instance_Trade trade) EXCHANGE_STOCKS
      = (Raise KeyError, self', EXCHANGE_STOCKS) /\
    Stock.trades self' = Stock.trades self ++ [trade] /\
    option_map TRADES
      (dict_get (Stock.addStockDetails self' type lastDividend parValue
                   fixedDividend EXCHANGE_STOCKS)
                (chars (Stock.symbol self)))
      = Some (Stock.trades self ++ [trade]).
Proof.
  intros Hreg His. unfold Stock.recordTrade. rewrite His. simpl.
  unfold dict_contains in Hreg.
  destruct (dict_get EXCHANGE_STOCKS (chars (Stock.symbol self)));
    [discriminate|].
  eexists. split; [reflexivity|]. split; [reflexivity|].
  unfold Stock.addStockDetails. simpl. now rewrite dict_get_set_same.
Qed.

Lemma recordTrade_unregistered_witness :
  exists self',
    Stock.recordTrade (Stock.__init__ TEA) (Instance_Trade trade1) []
      = (Raise KeyError, self', []) /\
    Stock.trades self' = Stock.trades (Stock.__init__ TEA) ++ [trade1] /\
    option_map TRADES
      (dict_get (Stock.addStockDetails self' COMMON 0 100 None [])
                (chars (Stock.symbol (Stock.__init__ TEA))))
      = Some (Stock.trades (Stock.__init__ TEA) ++ [trade1]).
Proof.
  apply (recordTrade_unregistered (Stock.__init__ TEA) trade1 []
           COMMON 0 100 None).
  - reflexivity.
  - reflexivity.
Defined.

(** X4. Once the cache holds the history of a stock object, every call of
    [recordTrade] on the object, accepted or refused, leaves the cache
    holding the history of the object: the two never drift apart. *)
Theorem recordTrade_keeps_synced (self : Stock.t) (trade : object)
    (EXCHANGE_STOCKS : dict stockRecord) :
  synced self EXCHANGE_STOCKS ->
  let '(_, self', EXCHANGE_STOCKS') :=
    Stock.recordTrade self trade EXCHANGE_STOCKS in
  synced self' EXCHANGE_STOCKS'.
Proof.
  unfold synced. intros Hsync. unfold Stock.recordTrade.
  destruct trade as [trade|v]; [|exact Hsync].
  destruct (negb _); [exact Hsync|].
  destruct (dict_get EXCHANGE_STOCKS (chars (Stock.symbol self)))
    as [r|] eqn:Hget; [|discriminate].
  simpl. now rewrite dict_get_set_same.
Qed.

Lemma recordTrade_keeps_synced_witness :
  let '(_, self', EXCHANGE_STOCKS') :=
    Stock.recordTrade (Stock.__init__ TEA) (Instance_Trade trade1)
      (Stock.addStockDetails (Stock.__init__ TEA) COMMON 0 100 None []) in
  synced self' EXCHANGE_STOCKS'.
Proof.
  apply (recordTrade_keeps_synced (Stock.__init__ TEA)
           (Instance_Trade trade1)
           (Stock.addStockDetails (Stock.__init__ TEA) COMMON 0 100 None [])).
  reflexivity.
Defined.

(** X5. [getStock] after [addStockDetails] returns the details given, with
    the history of the object; the fixed dividend comes back as the
    percentage divided by 100 in value (a percentage of zero is stored
    undivided, which is the same number), and as [None] when none was
    given. *)
Theorem getStock_after_addStockDetails (self : Stock.t) (type : StockType)
    (lastDividend parValue : Q) (fixedDividend : option Q)
    (EXCHANGE_STOCKS : dict stockRecord) :
  exists r,
    Stock.getStock
      (Stock.addStockDetails self type lastDividend parValue fixedDividend
         EXCHANGE_STOCKS) (Stock.symbol self) = Ok r /\
    TYPE r = type /\ LAST_DIVIDEND r = lastDividend /\
    PAR_VALUE r = parValue /\ TRADES r = Stock.trades self /\
    match fixedDividend, FIXED_DIVIDEND r with
    | Some percent, Some stored => stored == percent / 100
    | None, None => True
    | _, _ => False
    end.
Proof.
  unfold Stock.getStock, Stock.addStockDetails.
  rewrite dict_get_set_same. eexists. split; [reflexivity|]. simpl.
  repeat split.
  destruct fixedDividend as [p|]; simpl; [|exact I].
  destruct (Qeq_bool p 0) eqn:E; simpl.
  - apply Qeq_bool_iff in E. rewrite E. reflexivity.
  - reflexivity.
Qed.

(** X6. [addStockDetails] for a symbol the cache has keeps the symbols and
    their order; for a new symbol it puts the symbol after all others. *)
Theorem addStockDetails_keys (self : Stock.t) (type : StockType)
    (lastDividend parValue : Q) (fixedDividend : option Q)
    (EXCHANGE_STOCKS : dict stockRecord) :
  dict_keys (Stock.addStockDetails self type lastDividend parValue
               fixedDividend EXCHANGE_STOCKS)
    = if dict_contains EXCHANGE_STOCKS (chars (Stock.symbol self))
      then dict_keys EXCHANGE_STOCKS
      else dict_keys EXCHANGE_STOCKS ++ [chars (Stock.symbol self)].
Proof.
  unfold Stock.addStockDetails.
  destruct (dict_contains EXCHANGE_STOCKS (chars (Stock.symbol self))) eqn:E.
  - now apply dict_set_keys_present.
  - now apply dict_set_keys_absent.
Qed.

(** X7. A cache in which no symbol occurs twice stays so under
    [addStockDetails] and [recordTrade]. *)
Theorem cache_keys_stay_distinct (self : Stock.t) (type : StockType)
    (lastDividend parValue : Q) (fixedDividend : option Q) (trade : object)
    (EXCHANGE_STOCKS : dict stockRecord) :
  NoDup (dict_keys EXCHANGE_STOCKS) ->
  NoDup (dict_keys (Stock.addStockDetails self type lastDividend parValue
                      fixedDividend EXCHANGE_STOCKS)) /\
  NoDup (dict_keys (snd (Stock.recordTrade self trade EXCHANGE_STOCKS))).
Proof.
  intros Hnd. split.
  - unfold Stock.addStockDetails.
    destruct (dict_contains EXCHANGE_STOCKS (chars (Stock.symbol self)))
      eqn:E.
    + now rewrite dict_set_keys_present.
    + rewrite dict_set_keys_absent by exact E.
      apply NoDup_app; [exact Hnd | repeat constructor; intros [] |].
      intros k Hk [<- | []]. revert Hk. now apply dict_contains_keys.
  - unfold Stock.recordTrade.
    destruct trade as [trade|v]; [|exact Hnd].
    destruct (negb _); [exact Hnd|].
    destruct (dict_get EXCHANGE_STOCKS (chars (Stock.symbol self)))
      as [r|] eqn:Hget; [|exact Hnd].
    simpl. rewrite dict_set_keys_present; [exact Hnd|].
    apply dict_contains_get. eauto.
Qed.

Lemma cache_keys_stay_distinct_witness :
  NoDup (dict_keys (Stock.addStockDetails (Stock.__init__ GIN) PREFERRED
                      8 100 (Some 2) test_stocks)) /\
  NoDup (dict_keys (snd (Stock.recordTrade (Stock.__init__ GIN)
                           (Instance_Trade trade1) test_stocks))).
Proof.
  apply (cache_keys_stay_distinct (Stock.__init__ GIN) PREFERRED 8 100
           (Some 2) (Instance_Trade trade1) test_stocks).
  simpl. repeat constructor; simpl; intuition discriminate.
Defined.

(** X8. Recording a trade that the constructor produced keeps the
    constructor's invariant on every trade of the object and of the cache,
    whatever the outcome of the call. *)
Theorem recordTrade_keeps_trades_valid (timestamp_default : datetime)
    (symbol : str) (quantity : Q) (tradeType : TradeType) (price : Q)
    (timestamp : option datetime) (trade : Trade.t)
    (self : Stock.t) (EXCHANGE_STOCKS : dict stockRecord) :
  Trade.__init__ timestamp_default symbol quantity tradeType price timestamp
    = Ok trade ->
  Forall trade_valid (Stock.trades self) ->
  trades_valid EXCHANGE_STOCKS ->
  let '(_, self', EXCHANGE_STOCKS') :=
    Stock.recordTrade self (Instance_Trade trade) EXCHANGE_STOCKS in
  Forall trade_valid (Stock.trades self') /\ trades_valid EXCHANGE_STOCKS'.
Proof.
  intros Hinit Hself Hcache. apply Trade_init_valid in Hinit.
  pose proof (recordTrade_trades_valid self trade EXCHANGE_STOCKS
                Hcache Hself Hinit) as Hc.
  unfold Stock.recordTrade in *.
  destruct (negb _); [auto|].
  assert (Hs : Forall trade_valid (Stock.trades self ++ [trade]))
    by (apply Forall_app; auto).
  destruct (dict_get EXCHANGE_STOCKS (chars (Stock.symbol self))); auto.
Qed.

Lemma recordTrade_keeps_trades_valid_witness :
  let '(_, self', EXCHANGE_STOCKS') :=
    Stock.recordTrade (Stock.__init__ TEA) (Instance_Trade trade1)
      (Stock.addStockDetails (Stock.__init__ TEA) COMMON 0 100 None []) in
  Forall trade_valid (Stock.trades self') /\ trades_valid EXCHANGE_STOCKS'.
Proof.
  apply (recordTrade_keeps_trades_valid 0%Z TEA 100 BUY (241 # 2)
           (Some 600000000%Z) trade1 (Stock.__init__ TEA)
           (Stock.addStockDetails (Stock.__init__ TEA) COMMON 0 100 None [])).
  - reflexivity.
  - constructor.
  - simpl. repeat constructor.
Defined.

(** ** The view of an engine *)

(** X9. An engine constructed without a mapping, or with an empty one,
    answers from the cache as it is when the query is made: a stock that is
    registered after the engine was constructed is found, and one that is not
    in the cache raises the not-found error. *)
Theorem default_engine_follows_cache (stocks : option (dict stockRecord))
    (self : Stock.t) (type : StockType) (lastDividend parValue : Q)
    (fixedDividend : option Q) (EXCHANGE_STOCKS : dict stockRecord)
    (price : Q) :
  stocks = None \/ stocks = Some [] ->
  dict_contains EXCHANGE_STOCKS (chars (Stock.symbol self)) = false ->
  0 < price ->
  let engine := GBCETrading.__init__ stocks in
  GBCETrading.getDividendYield engine EXCHANGE_STOCKS
    (chars (Stock.symbol self)) (PNum price)
    = Raise (ValueError SymbolNotPresent) /\
  GBCETrading.getDividendYield engine
    (Stock.addStockDetails self type lastDividend parValue fixedDividend
       EXCHANGE_STOCKS)
    (chars (Stock.symbol self)) (PNum price)
    <> Raise (ValueError SymbolNotPresent).
Proof.
  intros Hstocks Habsent Hprice. cbv zeta.
  assert (Hview : forall EX,
            GBCETrading.view (GBCETrading.__init__ stocks) EX = EX)
    by (destruct Hstocks as [-> | ->]; reflexivity).
  split.
  - unfold GBCETrading.getDividendYield. rewrite Hview, Habsent. reflexivity.
  - unfold GBCETrading.getDividendYield. rewrite Hview.
    unfold Stock.addStockDetails, dict_contains.
    rewrite dict_get_set_same. simpl.
    apply Qlt_le_weak, Qlt_bool_false_iff in Hprice. rewrite Hprice.
    destruct type; simpl.
    + unfold truediv. destruct (Qeq_bool price 0); discriminate.
    + destruct (if truthy fixedDividend then _ else _); simpl;
        [|discriminate].
      unfold truediv. destruct (Qeq_bool price 0); discriminate.
Qed.

Lemma default_engine_follows_cache_witness :
  let engine := GBCETrading.__init__ (Some []) in
  GBCETrading.getDividendYield engine []
    (chars (Stock.symbol (Stock.__init__ GIN))) (PNum (11 # 5))
    = Raise (ValueError SymbolNotPresent) /\
  GBCETrading.getDividendYield engine
    (Stock.addStockDetails (Stock.__init__ GIN) PREFERRED 8 100 (Some 2) [])
    (chars (Stock.symbol (Stock.__init__ GIN))) (PNum (11 # 5))
    <> Raise (ValueError SymbolNotPresent).
Proof.
  apply (default_engine_follows_cache (Some []) (Stock.__init__ GIN)
           PREFERRED 8 100 (Some 2) [] (11 # 5)).
  - right. reflexivity.
  - reflexivity.
  - reflexivity.
Defined.

(** ** Volume-weighted stock price, further *)

(** X10. A stock registered by a new [Stock] object has an empty history in
    the cache, whatever was recorded under its symbol before: its
    volume-weighted stock price is [None] at any time. *)
Theorem getVolumeWeightedStockPrice_after_fresh_registration
    (symbol : str) (type : StockType) (lastDividend parValue : Q)
    (fixedDividend : option Q) (EXCHANGE_STOCKS : dict stockRecord)
    (w : World) :
  GBCETrading.getVolumeWeightedStockPrice (GBCETrading.__init__ None)
    (Stock.addStockDetails (Stock.__init__ symbol) type lastDividend parValue
       fixedDividend EXCHANGE_STOCKS)
    (chars symbol) w
  = (Ok None, advance w 1).
Proof.
  erewrite getVolumeWeightedStockPrice_present.
  2: { unfold Stock.addStockDetails. simpl. apply dict_get_set_same. }
  reflexivity.
Qed.

(** X11. A call for a symbol of the view reads the clock once; a call for
    any other symbol raises the not-found error without reading it. *)
Theorem getVolumeWeightedStockPrice_clock (self : GBCETrading.t)
    (EXCHANGE_STOCKS : dict stockRecord) (symbol : string) (w : World) :
  if dict_contains (GBCETrading.view self EXCHANGE_STOCKS) symbol
  then snd (GBCETrading.getVolumeWeightedStockPrice
              self EXCHANGE_STOCKS symbol w) = advance w 1
  else GBCETrading.getVolumeWeightedStockPrice self EXCHANGE_STOCKS symbol w
       = (Raise (ValueError SymbolNotPresent), w).
Proof.
  destruct (dict_contains (GBCETrading.view self EXCHANGE_STOCKS) symbol)
    eqn:Hin.
  - apply dict_contains_get in Hin as [r Hget].
    now rewrite (getVolumeWeightedStockPrice_present _ _ _ _ _ Hget).
  - unfold GBCETrading.getVolumeWeightedStockPrice. now rewrite Hin.
Qed.

(** X12. When every trade of a stock is more than five minutes old at the
    time of the call, the volume-weighted stock price is [None]. *)
Theorem getVolumeWeightedStockPrice_stale (self : GBCETrading.t)
    (EXCHANGE_STOCKS : dict stockRecord) (symbol : string) (r : stockRecord)
    (w : World) :
  dict_get (GBCETrading.view self EXCHANGE_STOCKS) symbol = Some r ->
  Forall (fun trade =>
            (Trade.timestamp trade < current_time w - five_minutes)%Z)
         (TRADES r) ->
  fst (GBCETrading.getVolumeWeightedStockPrice self EXCHANGE_STOCKS symbol w)
    = Ok None.
Proof.
  intros Hget Hold.
  rewrite (getVolumeWeightedStockPrice_present _ _ _ _ _ Hget).
  replace (qualifying (current_time w) (TRADES r)) with (@nil Trade.t);
    [reflexivity|].
  symmetry. destruct (qualifying (current_time w) (TRADES r))
    as [|trade kept] eqn:Hq; [reflexivity|].
  assert (Hin : In trade (qualifying (current_time w) (TRADES r)))
    by (rewrite Hq; now left).
  apply qualifying_In in Hin as [Hin Hge].
  rewrite Forall_forall in Hold. specialize (Hold _ Hin).
  exfalso. apply Z.ge_le in Hge. apply Z.lt_nge in Hold. contradiction.
Qed.

Lemma getVolumeWeightedStockPrice_stale_witness :
  fst (GBCETrading.getVolumeWeightedStockPrice (GBCETrading.__init__ None)
         [("TEA"%string,
           {| TYPE := COMMON; LAST_DIVIDEND := 0; FIXED_DIVIDEND := None;
              PAR_VALUE := 100; TRADES := [trade3] |})]
         "TEA"%string at_600s)
    = Ok None.
Proof.
  apply (getVolumeWeightedStockPrice_stale (GBCETrading.__init__ None)
           [("TEA"%string,
             {| TYPE := COMMON; LAST_DIVIDEND := 0; FIXED_DIVIDEND := None;
                PAR_VALUE := 100; TRADES := [trade3] |})]
           "TEA"%string
           {| TYPE := COMMON; LAST_DIVIDEND := 0; FIXED_DIVIDEND := None;
              PAR_VALUE := 100; TRADES := [trade3] |} at_600s).
  - reflexivity.
  - repeat constructor.
Defined.

(** ** All-share index, further *)

Lemma prices_in_turn_None (self : GBCETrading.t)
    (EXCHANGE_STOCKS : dict stockRecord) (symbol : string)
    (symbols : list string) (w : World) :
  (forall w0, fst (GBCETrading.getVolumeWeightedStockPrice
                     self EXCHANGE_STOCKS symbol w0) = Ok None) ->
  In symbol symbols ->
  In (Ok None) (prices_in_turn self EXCHANGE_STOCKS symbols w).
Proof.
  intros Hnone. revert w.
  induction symbols as [|s symbols IH]; intros w; simpl; [tauto|].
  intros [-> | Hin]; [left; apply Hnone | right; now apply IH].
Qed.

(** X13. Registering a stock by a new [Stock] object voids the index of the
    default engine: with valid trades in the cache, the index right after
    the registration is [None] at any time, until a trade is recorded for
    the stock. *)
Theorem getGBCEAllShareIndex_after_fresh_registration (pow : Q -> Q -> Q)
    (symbol : str) (type : StockType) (lastDividend parValue : Q)
    (fixedDividend : option Q) (EXCHANGE_STOCKS : dict stockRecord)
    (w : World) :
  trades_valid EXCHANGE_STOCKS ->
  fst (GBCETrading.getGBCEAllShareIndex pow (GBCETrading.__init__ None)
         (Stock.addStockDetails (Stock.__init__ symbol) type lastDividend
            parValue fixedDividend EXCHANGE_STOCKS) w)
    = Ok None.
Proof.
  intros Hvalid.
  set (EX := Stock.addStockDetails (Stock.__init__ symbol) type lastDividend
               parValue fixedDividend EXCHANGE_STOCKS).
  set (self := GBCETrading.__init__ None).
  assert (Hvalid' : trades_valid (GBCETrading.view self EX))
    by (apply addStockDetails_trades_valid; [exact Hvalid | constructor]).
  assert (Hget : dict_get (GBCETrading.view self EX) (chars symbol)
                 = Some {| TYPE := type; LAST_DIVIDEND := lastDividend;
                           FIXED_DIVIDEND :=
                             if truthy fixedDividend
                             then option_map (fun percent => percent / 100)
                                             fixedDividend
                             else fixedDividend;
                           PAR_VALUE := parValue; TRADES := [] |})
    by apply dict_get_set_same.
  destruct (mapM_prices_in_turn self EX
              (dict_keys (GBCETrading.view self EX)) w
              Hvalid' (incl_refl _)) as (prices & Hps & Hrun).
  assert (Hin : In None prices).
  { assert (H : In (Ok None) (map (@Ok (option Q)) prices)).
    { rewrite <- Hps. apply (prices_in_turn_None _ _ (chars symbol)).
      - intros w0.
        now rewrite (getVolumeWeightedStockPrice_present _ _ _ _ _ Hget).
      - apply dict_get_In in Hget. unfold dict_keys.
        change (chars symbol) with (fst (chars symbol,
          {| TYPE := type; LAST_DIVIDEND := lastDividend;
             FIXED_DIVIDEND :=
               if truthy fixedDividend
               then option_map (fun percent => percent / 100) fixedDividend
               else fixedDividend;
             PAR_VALUE := parValue; TRADES := [] |})).
        now apply in_map. }
    apply in_map_iff in H as (v & [= ->] & Hv). exact Hv. }
  unfold GBCETrading.getGBCEAllShareIndex, bind.
  rewrite Hrun. apply contains_None_In in Hin. now rewrite Hin.
Qed.

Lemma getGBCEAllShareIndex_after_fresh_registration_witness :
  fst (GBCETrading.getGBCEAllShareIndex Qmult (GBCETrading.__init__ None)
         (Stock.addStockDetails (Stock.__init__ GIN) COMMON 20 200 None
            [("TEA"%string, stockTea_details)]) at_600s)
    = Ok None.
Proof.
  apply (getGBCEAllShareIndex_after_fresh_registration Qmult GIN COMMON
           20 200 None [("TEA"%string, stockTea_details)] at_600s).
  simpl. repeat constructor.
Defined.

(** X14. In a view with valid trades the index reads the clock once for
    every symbol of the view, whether it comes out as a number, as [None]
    or, for the empty view, as an exception. *)
Theorem getGBCEAllShareIndex_clock (pow : Q -> Q -> Q)
    (self : GBCETrading.t) (EXCHANGE_STOCKS : dict stockRecord) (w : World) :
  trades_valid (GBCETrading.view self EXCHANGE_STOCKS) ->
  snd (GBCETrading.getGBCEAllShareIndex pow self EXCHANGE_STOCKS w)
    = advance w (List.length (GBCETrading.view self EXCHANGE_STOCKS)).
Proof.
  intros Hvalid.
  destruct (mapM_prices_in_turn self EXCHANGE_STOCKS
              (dict_keys (GBCETrading.view self EXCHANGE_STOCKS)) w
              Hvalid (incl_refl _)) as (prices & _ & Hrun).
  unfold dict_keys in Hrun at 2. rewrite length_map in Hrun.
  unfold GBCETrading.getGBCEAllShareIndex. unfold bind at 1. rewrite Hrun.
  destruct (negb (GBCETrading.contains_None prices)); [|reflexivity].
  unfold bind, lift, ret.
  destruct (GBCETrading.reduce_mul prices 1); [|reflexivity].
  destruct (truediv 1 _); reflexivity.
Qed.

Lemma getGBCEAllShareIndex_clock_witness :
  snd (GBCETrading.getGBCEAllShareIndex Qmult (GBCETrading.__init__ None)
         test_stocks at_600s)
    = advance at_600s
        (List.length
           (GBCETrading.view (GBCETrading.__init__ None) test_stocks)).
Proof.
  apply (getGBCEAllShareIndex_clock Qmult (GBCETrading.__init__ None)
           test_stocks at_600s).
  simpl. repeat constructor.
Defined.

(** ** Dividend yield and P/E ratio, further *)

(** X15. For a Preferred stock registered without a fixed dividend
    percentage, at every price that is a number and at least zero,
    [getDividendYield] raises a [TypeError], from the product of [None] and
    the par value, and [getPERatio] catches it and returns [None]. *)
Theorem preferred_without_percentage (self : GBCETrading.t)
    (EXCHANGE_STOCKS : dict stockRecord) (symbol : string)
    (lastDividend parValue price : Q) :
  registered (GBCETrading.view self EXCHANGE_STOCKS) symbol
             PREFERRED lastDividend parValue None ->
  0 <= price ->
  GBCETrading.getDividendYield self EXCHANGE_STOCKS symbol (PNum price)
    = Raise TypeError /\
  GBCETrading.getPERatio self EXCHANGE_STOCKS symbol (PNum price) = Ok None.
Proof.
  intros (r & Hget & Hty & _ & _ & Hfd) Hprice. simpl in Hfd.
  assert (Hdy : GBCETrading.getDividendYield self EXCHANGE_STOCKS symbol
                  (PNum price) = Raise TypeError)
    by (rewrite (getDividendYield_present _ _ _ _ _ Hget Hprice), Hty, Hfd;
        reflexivity).
  split; [exact Hdy|].
  unfold GBCETrading.getPERatio, dict_contains. rewrite Hget. simpl.
  apply Qlt_bool_false_iff in Hprice. now rewrite Hprice, Hdy.
Qed.

Lemma preferred_without_percentage_witness :
  GBCETrading.getDividendYield (GBCETrading.__init__ None)
    (Stock.addStockDetails (Stock.__init__ GIN) PREFERRED 8 100 None [])
    "GIN"%string (PNum (11 # 5)) = Raise TypeError /\
  GBCETrading.getPERatio (GBCETrading.__init__ None)
    (Stock.addStockDetails (Stock.__init__ GIN) PREFERRED 8 100 None [])
    "GIN"%string (PNum (11 # 5)) = Ok None.
Proof.
  apply (preferred_without_percentage (GBCETrading.__init__ None)
           (Stock.addStockDetails (Stock.__init__ GIN) PREFERRED 8 100
              None [])
           "GIN"%string 8 100 (11 # 5)).
  - eexists. split; [reflexivity|]. simpl. auto.
  - discriminate.
Defined.

(** ** Trade, further *)

(** X16. With a quantity and a price greater than zero and a timestamp
    given, the constructor returns a trade that stores the five arguments
    as given, and the total price of the trade is positive. *)
Theorem Trade_init_stores_arguments (timestamp_default : datetime)
    (symbol : str) (quantity : Q) (tradeType : TradeType) (price : Q)
    (timestamp : datetime) :
  0 < quantity -> 0 < price ->
  exists trade,
    Trade.__init__ timestamp_default symbol quantity tradeType price
      (Some timestamp) = Ok trade /\
    Trade.symbol trade = symbol /\ Trade.quantity trade = quantity /\
    Trade.tradeType trade = tradeType /\ Trade.price trade = price /\
    Trade.timestamp trade = timestamp /\
    0 < Trade.totalPrice trade.
Proof.
  intros Hq Hp. unfold Trade.__init__.
  pose proof Hq as Hq'. pose proof Hp as Hp'.
  apply Qlt_bool_iff in Hq', Hp'. rewrite Hq', Hp'.
  eexists. split; [reflexivity|]. simpl. repeat split; try reflexivity.
  unfold Trade.totalPrice. simpl. now apply Qmult_lt_0_compat.
Qed.

Lemma Trade_init_stores_arguments_witness :
  exists trade,
    Trade.__init__ 0%Z TEA 100 BUY (241 # 2) (Some 600000000%Z) = Ok trade /\
    Trade.symbol trade = TEA /\ Trade.quantity trade = 100 /\
    Trade.tradeType trade = BUY /\ Trade.price trade = 241 # 2 /\
    Trade.timestamp trade = 600000000%Z /\
    0 < Trade.totalPrice trade.
Proof.
  apply (Trade_init_stores_arguments 0%Z TEA 100 BUY (241 # 2)
           600000000%Z).
  - reflexivity.
  - reflexivity.
Defined.
